(** * Portfolio content manager (app.py): model and verified properties

    A shallow embedding of the Flask application in [app.py]: the two
    tables ([User], [Project]), the signed session cookie, the route
    handlers and the module-level bootstrap block.  Handlers are pure
    functions from the request, the store and the client's session to a
    response together with the new store and session.

    Collaborators outside the file (werkzeug's password hashing and
    filename sanitising, the Supabase storage client, the SMTP relay, the
    clock) are inputs of the model.  The storage engine is taken to accept
    every commit: column-length limits and the like are enforced by the
    engine, not by this code, and are not modelled. *)

From Stdlib Require Import ZArith List String Ascii Bool Lia.
From Stdlib Require Import Sorting.Sorted Sorting.Permutation.
From Stdlib Require Import DecimalString.
Import ListNotations.

Local Open Scope string_scope.
Local Open Scope Z_scope.

(** ** Python built-ins used by the handlers *)

Module Py.

(** [sep.join(parts)] *)
Fixpoint join (sep : string) (parts : list string) : string :=
  match parts with
  | [] => ""
  | [p] => p
  | p :: rest => p ++ sep ++ join sep rest
  end.

(** [s.split(c)] for a one-character separator [c]: never returns the
    empty list; [''.split(',')] is [['']]. *)
Fixpoint split (c : ascii) (s : string) : list string :=
  match s with
  | EmptyString => [EmptyString]
  | String a s' =>
      if Ascii.eqb a c then EmptyString :: split c s'
      else match split c s' with
           | w :: ws => String a w :: ws
           | [] => [String a EmptyString]
           end
  end.

(** Truthiness of a [str]: the empty string is falsy. *)
Definition truthy (s : string) : bool :=
  match s with EmptyString => false | String _ _ => true end.

(** [c in s] for a character [c]. *)
Fixpoint contains (c : ascii) (s : string) : bool :=
  match s with
  | EmptyString => false
  | String a s' => Ascii.eqb a c || contains c s'
  end.

(** [str(n)] for an [int]. *)
Definition str_of_int (n : Z) : string :=
  NilZero.string_of_int (Z.to_int n).

(** What a call that may raise produces: a value, or the raised
    exception (kept as its message, which is all the handlers use). *)
Inductive outcome (A : Type) : Type :=
| Returned (a : A)
| Raised (e : string).
Arguments Returned {A} a.
Arguments Raised {A} e.

End Py.

(** ** Tables

    [User] and [Project] as declared with SQLAlchemy.  [title],
    [description] and [link] are written from [request.form.get], which
    yields [None] for a missing field, hence [option]; [tech_stack] and
    [image_filename] are only ever written with [str] values. *)

Module User.
Record t : Type := mk
  { id : Z;
    email : option string;
    password : string;
    is_admin : bool }.
End User.

Module Project.
Record t : Type := mk
  { id : Z;
    title : option string;
    description : option string;
    tech_stack : string;
    link : option string;
    image_filename : string }.
End Project.

(** The database: each table holds its rows in the order the engine
    scans them (a query without [order_by] returns them in that order),
    and a sequence hands out the next primary key. *)
Record Store : Type :=
  { users : list User.t;
    projects : list Project.t;
    user_seq : Z;
    project_seq : Z }.

(** What [db.create_all()] leaves on a fresh database. *)
Definition empty_store : Store :=
  {| users := []; projects := []; user_seq := 1; project_seq := 1 |}.

Definition option_string_eqb (a b : option string) : bool :=
  match a, b with
  | Some x, Some y => String.eqb x y
  | None, None => true
  | _, _ => false
  end.

(** [User.query.filter_by(email=email).first()]; with [email=None] the
    filter is [IS NULL]. *)
Definition User_query_filter_by_email (st : Store) (email : option string)
  : option User.t :=
  find (fun u => option_string_eqb (User.email u) email) (users st).

(** [User.query.get(id)] *)
Definition User_query_get (st : Store) (id : Z) : option User.t :=
  find (fun u => User.id u =? id) (users st).

(** [Project.query.get(id)] *)
Definition Project_query_get (st : Store) (id : Z) : option Project.t :=
  find (fun p => Project.id p =? id) (projects st).

(** [Project.query.all()] *)
Definition Project_query_all (st : Store) : list Project.t := projects st.

Fixpoint insert_desc (p : Project.t) (l : list Project.t) : list Project.t :=
  match l with
  | [] => [p]
  | q :: l' =>
      if Project.id q <=? Project.id p then p :: l
      else q :: insert_desc p l'
  end.

(** [Project.query.order_by(Project.id.desc()).all()] *)
Definition Project_query_order_by_id_desc (st : Store) : list Project.t :=
  fold_right insert_desc [] (projects st).

(** [db.session.add(User(...)); db.session.commit()] *)
Definition add_user (st : Store) (email : option string) (password : string)
  (is_admin : bool) : Store :=
  {| users := users st ++ [User.mk (user_seq st) email password is_admin];
     projects := projects st;
     user_seq := user_seq st + 1;
     project_seq := project_seq st |}.

(** [db.session.add(Project(...)); db.session.commit()] *)
Definition add_project (st : Store) (title description : option string)
  (tech_stack : string) (link : option string) (image_filename : string)
  : Store :=
  {| users := users st;
     projects := projects st ++
       [Project.mk (project_seq st) title description tech_stack link
          image_filename];
     user_seq := user_seq st;
     project_seq := project_seq st + 1 |}.

(** Committing a row that was loaded and then assigned to. *)
Definition update_project (st : Store) (p : Project.t) : Store :=
  {| users := users st;
     projects :=
       map (fun q => if Project.id q =? Project.id p then p else q)
         (projects st);
     user_seq := user_seq st;
     project_seq := project_seq st |}.

(** [db.session.delete(project); db.session.commit()] *)
Definition delete_project_row (st : Store) (p : Project.t) : Store :=
  {| users := users st;
     projects :=
       filter (fun q => negb (Project.id q =? Project.id p)) (projects st);
     user_seq := user_seq st;
     project_seq := project_seq st |}.

(** ** Requests, responses and the ambient world *)

Inductive Method : Type := GET | POST.

(** An entry of [request.files]. *)
Record FileStorage : Type :=
  { filename : string;
    content : string;
    content_type : string }.

(** [form] and [files] are multi-dicts: order and repeated keys matter. *)
Record Request : Type :=
  { method : Method;
    form : list (string * string);
    files : list (string * FileStorage) }.

(** [d.get(key)] on a multi-dict: the first value, or [None]. *)
Fixpoint multidict_get {A : Type} (d : list (string * A)) (key : string)
  : option A :=
  match d with
  | [] => None
  | (k, v) :: d' => if String.eqb k key then Some v else multidict_get d' key
  end.

(** [d.getlist(key)]: every value for the key, in order. *)
Fixpoint multidict_getlist {A : Type} (d : list (string * A)) (key : string)
  : list A :=
  match d with
  | [] => []
  | (k, v) :: d' =>
      if String.eqb k key then v :: multidict_getlist d' key
      else multidict_getlist d' key
  end.

(** The URL rules, with their path parameters already converted. *)
Inductive Route : Type :=
| route_home
| route_get_projects
| route_send_message
| route_admin_login (the_only_admin : string)
| route_admin_dashboard (the_only_admin : string)
| route_edit_project (the_only_admin : string) (id : Z)
| route_delete_project (the_only_admin : string) (id : Z)
| route_logout.

(** One element of the JSON array served by [/api/projects]. *)
Module ProjectView.
Record t : Type := mk
  { title : option string;
    description : option string;
    tech_stack : list string;
    link : option string;
    image_url : string }.
End ProjectView.

Inductive Response : Type :=
| render_index (projects : list Project.t)
| render_admin_login (id : string)
| render_admin_dashboard (projects : list Project.t)
    (admin_christiano_bernard : string)
| jsonify (project_list : list ProjectView.t)
| redirect (endpoint : Route) (anchor : option string) (next : option Route)
| abort (status : Z).

(** The Supabase storage client, bucket already chosen. *)
Record Client : Type :=
  { upload : string -> string -> string -> Py.outcome unit;
    get_public_url : string -> Py.outcome string }.

(** What a request finds around it: the module-level [supabase] handle
    ([None] when it was not configured or failed to initialise), the
    clock ([int(time.time())]) and how the SMTP conversation ends. *)
Record World : Type :=
  { supabase : option Client;
    time_now : Z;
    smtp_relay : Py.outcome unit }.

(** What a handler leaves behind: the response, the committed store, the
    session cookie ([_user_id], if any) and the messages flashed, each as
    (category, message). *)
Record Result : Type :=
  { response : Response;
    store : Store;
    session : option Z;
    flashes : list (string * string) }.

(** ** Session gate (Flask-Login) *)

(** [@login_manager.user_loader] *)
Definition load_user (st : Store) (user_id : Z) : option User.t :=
  User_query_get st user_id.

(** [current_user]: the user the cookie names, if that row exists. *)
Definition current_user (st : Store) (sess : option Z) : option User.t :=
  match sess with
  | Some user_id => load_user st user_id
  | None => None
  end.

(** [login_manager.login_view = 'home'] *)
Definition login_view : Route := route_home.

(** [LoginManager.unauthorized]: flash the login message and redirect to
    the login view, remembering the page asked for. *)
Definition unauthorized (here : Route) (st : Store) (sess : option Z)
  : Result :=
  {| response := redirect login_view None (Some here);
     store := st;
     session := sess;
     flashes := [("message", "Please log in to access this page.")] |}.

(** [@login_required] *)
Definition login_required (here : Route) (st : Store) (sess : option Z)
  (view : Result) : Result :=
  match current_user st sess with
  | Some _ => view
  | None => unauthorized here st sess
  end.

Definition comma : ascii := ","%char.

Definition placeholder_image : string :=
  "https://via.placeholder.com/800x600?text=No+Image".

(** werkzeug's [check_password_hash(pwhash, password)] first unpacks
    [pwhash.split("$", 2)] into method, salt and hash value and returns
    [False] when there are fewer than three parts; only after that does
    it encode the password.  Three parts are there exactly when the
    stored hash holds at least two [$]. *)
Definition pwhash_unpacks (pwhash : string) : bool :=
  match Py.split "$"%char pwhash with
  | _ :: _ :: _ :: _ => true
  | _ => false
  end.

(** ** Route handlers *)

Section Handlers.

(** werkzeug.security and werkzeug.utils, on the [str] arguments their
    signatures declare.  [generate_password_hash] draws a random salt,
    passed here as a first argument. *)
Variable check_password_hash : string -> string -> bool.
Variable generate_password_hash : string -> string -> string.
Variable secure_filename : string -> string.

(** [home] *)
Definition home (st : Store) (sess : option Z) : Result :=
  {| response := render_index (Project_query_order_by_id_desc st);
     store := st;
     session := sess;
     flashes := [] |}.

(** The dictionary [get_projects] builds for one row. *)
Definition project_view (p : Project.t) : ProjectView.t :=
  let stack :=
    if Py.truthy (Project.tech_stack p)
    then Py.split comma (Project.tech_stack p)
    else [] in
  ProjectView.mk (Project.title p) (Project.description p) stack
    (Project.link p) (Project.image_filename p).

(** [get_projects] *)
Definition get_projects (st : Store) (sess : option Z) : Result :=
  {| response := jsonify (map project_view (Project_query_all st));
     store := st;
     session := sess;
     flashes := [] |}.

(** [send_message]: the message itself is not modelled, only whether
    the relay raised. *)
Definition send_message (w : World) (st : Store) (sess : option Z)
  : Result :=
  {| response := redirect route_home (Some "contact") None;
     store := st;
     session := sess;
     flashes :=
       match smtp_relay w with
       | Py.Returned _ => [("success", "Message sent successfully!")]
       | Py.Raised e => [("danger", "Error sending message: " ++ e)]
       end |}.

(** [admin_login].  [check_password_hash] is reached only when a row
    matched.  Handed a missing [password] field ([None]) it returns
    [False] if the stored hash does not unpack, and otherwise raises on
    encoding the password, which Flask turns into a 500 response. *)
Definition admin_login (the_only_admin : string) (req : Request)
  (st : Store) (sess : option Z) : Result :=
  let page fl :=
    {| response := render_admin_login the_only_admin;
       store := st; session := sess; flashes := fl |} in
  match method req with
  | GET => page []
  | POST =>
      let email := multidict_get (form req) "email" in
      let password := multidict_get (form req) "password" in
      match User_query_filter_by_email st email with
      | None => page [("message", "Invalid credentials.")]
      | Some user =>
          match password with
          | None =>
              if pwhash_unpacks (User.password user) then
                {| response := abort 500;
                   store := st; session := sess; flashes := [] |}
              else page [("message", "Invalid credentials.")]
          | Some password =>
              if check_password_hash (User.password user) password then
                if User.is_admin user then
                  {| response :=
                       redirect (route_admin_dashboard the_only_admin)
                         None None;
                     store := st;
                     session := Some (User.id user);
                     flashes := [] |}
                else page [("message", "Access denied.")]
              else page [("message", "Invalid credentials.")]
          end
      end
  end.

(** The body of the [try] block shared by [admin_dashboard] and
    [edit_project]: sanitise the name, build the path, upload, ask for
    the public URL.  The first call that raises ends the block. *)
Definition upload_image (w : World) (client : Client) (file : FileStorage)
  : Py.outcome string :=
  let filename := secure_filename (filename file) in
  let file_content := content file in
  let file_path :=
    "projects/" ++ Py.str_of_int (time_now w) ++ "_" ++ filename in
  match upload client file_path file_content (content_type file) with
  | Py.Raised e => Py.Raised e
  | Py.Returned _ => get_public_url client file_path
  end.

(** [if file.filename != '' and supabase:] *)
Definition upload_wanted (w : World) (file : FileStorage) : option Client :=
  if String.eqb (filename file) "" then None else supabase w.

(** [admin_dashboard] *)
Definition admin_dashboard (w : World) (the_only_admin : string)
  (req : Request) (st : Store) (sess : option Z) : Result :=
  login_required (route_admin_dashboard the_only_admin) st sess
    (let '(st', fl) :=
       match method req with
       | GET => (st, [])
       | POST =>
           let '(image_url, fl) :=
             match multidict_get (files req) "image" with
             | None => (placeholder_image, [])
             | Some file =>
                 match upload_wanted w file with
                 | None => (placeholder_image, [])
                 | Some client =>
                     match upload_image w client file with
                     | Py.Returned url => (url, [])
                     | Py.Raised e =>
                         (placeholder_image,
                          [("danger", "Image upload failed: " ++ e)])
                     end
                 end
             end in
           let selected_tech := multidict_getlist (form req) "tech_stack" in
           let tech_string := Py.join "," selected_tech in
           (add_project st
              (multidict_get (form req) "title")
              (multidict_get (form req) "description")
              tech_string
              (multidict_get (form req) "link")
              image_url,
            fl)
       end in
     {| response :=
          render_admin_dashboard (Project_query_order_by_id_desc st')
            the_only_admin;
        store := st';
        session := sess;
        flashes := fl |}).

(** [edit_project] *)
Definition edit_project (w : World) (the_only_admin : string) (id : Z)
  (req : Request) (st : Store) (sess : option Z) : Result :=
  login_required (route_edit_project the_only_admin id) st sess
    match Project_query_get st id with
    | None =>
        {| response := abort 404;
           store := st; session := sess; flashes := [] |}
    | Some project =>
        let selected_tech := multidict_getlist (form req) "tech_stack" in
        let image_filename :=
          match multidict_get (files req) "image" with
          | None => Project.image_filename project
          | Some file =>
              match upload_wanted w file with
              | None => Project.image_filename project
              | Some client =>
                  match upload_image w client file with
                  | Py.Returned url => url
                  | Py.Raised _ => Project.image_filename project
                  end
              end
          end in
        let project :=
          Project.mk (Project.id project)
            (multidict_get (form req) "title")
            (multidict_get (form req) "description")
            (Py.join "," selected_tech)
            (multidict_get (form req) "link")
            image_filename in
        {| response :=
             redirect (route_admin_dashboard the_only_admin) None None;
           store := update_project st project;
           session := sess;
           flashes := [] |}
    end.

(** [delete_project] *)
Definition delete_project (the_only_admin : string) (id : Z)
  (st : Store) (sess : option Z) : Result :=
  login_required (route_delete_project the_only_admin id) st sess
    match Project_query_get st id with
    | None =>
        {| response := abort 404;
           store := st; session := sess; flashes := [] |}
    | Some project =>
        {| response :=
             redirect (route_admin_dashboard the_only_admin) None None;
           store := delete_project_row st project;
           session := sess;
           flashes := [] |}
    end.

(** [logout] *)
Definition logout (st : Store) (sess : option Z) : Result :=
  login_required route_logout st sess
    {| response := redirect route_home None None;
       store := st;
       session := None;
       flashes := [] |}.

(** URL dispatch: a rule answers only the methods it lists ([GET] when
    it lists none), anything else is 405. *)
Definition dispatch (w : World) (route : Route) (req : Request)
  (st : Store) (sess : option Z) : Result :=
  match route, method req with
  | route_home, GET => home st sess
  | route_get_projects, GET => get_projects st sess
  | route_send_message, POST => send_message w st sess
  | route_admin_login tok, _ => admin_login tok req st sess
  | route_admin_dashboard tok, _ => admin_dashboard w tok req st sess
  | route_edit_project tok id, POST => edit_project w tok id req st sess
  | route_delete_project tok id, POST => delete_project tok id st sess
  | route_logout, GET => logout st sess
  | _, _ =>
      {| response := abort 405;
         store := st; session := sess; flashes := [] |}
  end.

(** ** Bootstrap: the module-level [with app.app_context():] block *)

(** [ADMIN_EMAIL] and [ADMIN_PASSWORD] as [os.environ.get] returns
    them. *)
Record Config : Type :=
  { ADMIN_EMAIL : option string;
    ADMIN_PASSWORD : option string }.

(** Seeds the admin row unless a row with the configured e-mail
    exists.  Hashing a missing password raises and the process does not
    start. *)
Definition bootstrap (cfg : Config) (salt : string) (st : Store)
  : Py.outcome Store :=
  let admin_email := ADMIN_EMAIL cfg in
  match User_query_filter_by_email st admin_email with
  | Some _ => Py.Returned st
  | None =>
      match ADMIN_PASSWORD cfg with
      | None => Py.Raised "'NoneType' object has no attribute 'encode'"
      | Some admin_password =>
          let hashed_pw := generate_password_hash salt admin_password in
          Py.Returned (add_user st admin_email hashed_pw true)
      end
  end.

(** ** The running system

    One browser client talking to the server: the client keeps the
    session cookie of the last response (the cookie is signed, so the
    client cannot craft one).  Between requests the process may be
    restarted, which reruns the bootstrap block; a start that raises
    leaves the database as it was. *)
Inductive Event : Type :=
| ev_request (w : World) (route : Route) (req : Request)
| ev_restart (cfg : Config) (salt : string).

Definition step (s : Store * option Z) (ev : Event) : Store * option Z :=
  let '(st, sess) := s in
  match ev with
  | ev_request w route req =>
      let r := dispatch w route req st sess in
      (store r, session r)
  | ev_restart cfg salt =>
      match bootstrap cfg salt st with
      | Py.Returned st' => (st', sess)
      | Py.Raised _ => (st, sess)
      end
  end.

Definition run (s : Store * option Z) (evs : list Event)
  : Store * option Z :=
  fold_left step evs s.

End Handlers.

(** ** Module-level configuration *)

(** [s.startswith(prefix)] *)
Fixpoint startswith (s prefix : string) {struct prefix} : bool :=
  match prefix, s with
  | EmptyString, _ => true
  | String _ _, EmptyString => false
  | String a prefix', String b s' => Ascii.eqb a b && startswith s' prefix'
  end.

(** [s[n:]] *)
Fixpoint drop (n : nat) (s : string) : string :=
  match n, s with
  | O, _ => s
  | S _, EmptyString => EmptyString
  | S n', String _ s' => drop n' s'
  end.

(** [s.replace(old, new, 1)] for a non-empty [old]: the leftmost
    occurrence is replaced, if there is one. *)
Fixpoint replace_first (old new s : string) : string :=
  if startswith s old then new ++ drop (String.length old) s
  else match s with
       | EmptyString => EmptyString
       | String a s' => String a (replace_first old new s')
       end.

(** [SQLALCHEMY_DATABASE_URI] as computed from [DATABASE_URL]: the
    scheme Render hands out is rewritten.  With the variable unset,
    [startswith] is called on [None] and the import fails. *)
Definition database_uri (database_url : option string) : Py.outcome string :=
  match database_url with
  | None => Py.Raised "'NoneType' object has no attribute 'startswith'"
  | Some database_url =>
      Py.Returned
        (if startswith database_url "postgres://"
         then replace_first "postgres://" "postgresql://" database_url
         else database_url)
  end.

(** Truthiness of what [os.environ.get] returns. *)
Definition env_truthy (v : option string) : bool :=
  match v with
  | Some s => Py.truthy s
  | None => false
  end.

(** The module-level [supabase] handle: created only when both
    variables are set and non-empty; a [create_client] that raises is
    caught and leaves [None]. *)
Definition init_supabase (SUPABASE_URL SUPABASE_KEY : option string)
  (create_client : string -> string -> Py.outcome Client) : option Client :=
  match SUPABASE_URL, SUPABASE_KEY with
  | Some url, Some key =>
      if Py.truthy url && Py.truthy key then
        match create_client url key with
        | Py.Returned client => Some client
        | Py.Raised _ => None
        end
      else None
  | _, _ => None
  end.

(** ** A concrete instance

    Stand-ins for the collaborators, used to run the model on examples. *)

Definition demo_digest (salt password : string) : string :=
  password ++ "/" ++ salt.

Definition demo_generate_password_hash (salt password : string) : string :=
  "pbkdf2:sha256$" ++ salt ++ "$" ++ demo_digest salt password.

Definition demo_check_password_hash (pwhash password : string) : bool :=
  match Py.split "$"%char pwhash with
  | [_; salt; hashval] => String.eqb (demo_digest salt password) hashval
  | _ => false
  end.

Definition demo_secure_filename (name : string) : string := name.

Definition demo_client_ok : Client :=
  {| upload := fun _ _ _ => Py.Returned tt;
     get_public_url := fun path => Py.Returned ("https://cdn.example/" ++ path) |}.

Definition demo_client_down : Client :=
  {| upload := fun _ _ _ => Py.Raised "storage unreachable";
     get_public_url := fun path => Py.Returned ("https://cdn.example/" ++ path) |}.

Definition demo_world (client : option Client) : World :=
  {| supabase := client; time_now := 1700000000; smtp_relay := Py.Returned tt |}.

Definition demo_config : Config :=
  {| ADMIN_EMAIL := Some "admin@example.com";
     ADMIN_PASSWORD := Some "s3cret" |}.

Definition demo_admin : User.t :=
  User.mk 1 (Some "admin@example.com")
    (demo_generate_password_hash "salt" "s3cret") true.

Definition demo_visitor : User.t :=
  User.mk 2 (Some "guest@example.com")
    (demo_generate_password_hash "pepper" "letmein") false.

(** The store the bootstrap block leaves on a fresh database. *)
Definition demo_store : Store :=
  {| users := [demo_admin]; projects := []; user_seq := 2; project_seq := 1 |}.

(** The same with a second, non-admin row. *)
Definition demo_store_with_visitor : Store :=
  {| users := [demo_admin; demo_visitor]; projects := [];
     user_seq := 3; project_seq := 1 |}.

Definition demo_project (id : Z) (title : string) (image : string)
  : Project.t :=
  Project.mk id (Some title) (Some "about") "Go,Rust"
    (Some "https://example.com") image.

Definition demo_store_two_projects : Store :=
  {| users := [demo_admin];
     projects := [demo_project 1 "first" "https://cdn.example/a.png";
                  demo_project 2 "second" placeholder_image];
     user_seq := 2; project_seq := 3 |}.

Definition demo_image : FileStorage :=
  {| filename := "shot.png"; content := "PNG"; content_type := "image/png" |}.

Definition post (form : list (string * string))
  (files : list (string * FileStorage)) : Request :=
  {| method := POST; form := form; files := files |}.

Definition get : Request := {| method := GET; form := []; files := [] |}.

(** ** Predicates used in the statements *)

(** [p] may stand before [q] in a listing by descending id. *)
Definition id_desc (p q : Project.t) : Prop := Project.id q <= Project.id p.

(** The rows with [is_admin] set. *)
Definition admin_rows (st : Store) : list User.t :=
  filter User.is_admin (users st).

(** The primary key of [User]: ids are distinct and were drawn from the
    sequence. *)
Definition user_keys_ok (st : Store) : Prop :=
  NoDup (map User.id (users st)) /\
  Forall (fun u => User.id u < user_seq st) (users st).

(** The primary key of [Project]: ids are distinct and were drawn from
    the sequence. *)
Definition project_keys_ok (st : Store) : Prop :=
  NoDup (map Project.id (projects st)) /\
  Forall (fun p => Project.id p < project_seq st) (projects st).

(** The session, if there is one, names a row whose [is_admin] is set. *)
Definition session_of_admin (st : Store) (sess : option Z) : Prop :=
  match sess with
  | None => True
  | Some user_id =>
      exists u, load_user st user_id = Some u /\ User.is_admin u = true
  end.

(** The same route with another value for the token path parameter. *)
Definition route_with_token (tok : string) (r : Route) : Route :=
  match r with
  | route_admin_login _ => route_admin_login tok
  | route_admin_dashboard _ => route_admin_dashboard tok
  | route_edit_project _ id => route_edit_project tok id
  | route_delete_project _ id => route_delete_project tok id
  | route_home | route_get_projects | route_send_message | route_logout => r
  end.

(** A response with the token it echoes (in a template argument or in a
    URL it redirects to) replaced. *)
Definition response_with_token (tok : string) (resp : Response) : Response :=
  match resp with
  | render_admin_login _ => render_admin_login tok
  | render_admin_dashboard projects _ => render_admin_dashboard projects tok
  | redirect endpoint anchor next =>
      redirect (route_with_token tok endpoint) anchor
        (option_map (route_with_token tok) next)
  | render_index _ | jsonify _ | abort _ => resp
  end.

(** Case analysis on whatever the goal branches on, innermost first. *)
Ltac break_matches :=
  repeat match goal with
         | |- context [match ?x with _ => _ end] =>
             lazymatch x with
             | context [match _ with _ => _ end] => fail
             | _ => destruct x eqn:?
             end
         end.

(** * Properties *)

(** ** Strings *)

Lemma split_not_nil (c : ascii) (s : string) : Py.split c s <> [].
Proof.
  destruct s as [|a s]; simpl; [discriminate|].
  destruct (Ascii.eqb a c); [discriminate|].
  destruct (Py.split c s); discriminate.
Qed.

Lemma split_no_sep (c : ascii) (s : string) :
  Py.contains c s = false -> Py.split c s = [s].
Proof.
  induction s as [|a s IH]; simpl; [reflexivity|].
  intros H. apply orb_false_iff in H as [Ha Hs].
  rewrite Ha, (IH Hs). reflexivity.
Qed.

Lemma split_app_sep (c : ascii) (p rest : string) :
  Py.contains c p = false ->
  Py.split c (p ++ String c rest) = p :: Py.split c rest.
Proof.
  induction p as [|a p IH]; simpl; intros H.
  - now rewrite Ascii.eqb_refl.
  - apply orb_false_iff in H as [Ha Hp].
    rewrite Ha, (IH Hp). reflexivity.
Qed.

Lemma split_join (c : ascii) (tags : list string) :
  tags <> [] ->
  Forall (fun t => Py.contains c t = false) tags ->
  Py.split c (Py.join (String c "") tags) = tags.
Proof.
  induction tags as [|t tags IH]; intros Hne Hall; [congruence|].
  inversion Hall as [|? ? Ht Htags]; subst.
  destruct tags as [|t' tags].
  - simpl. now apply split_no_sep.
  - change (Py.join (String c "") (t :: t' :: tags))
      with (t ++ String c (Py.join (String c "") (t' :: tags))).
    rewrite split_app_sep by assumption.
    rewrite IH; [reflexivity|discriminate|assumption].
Qed.

Lemma join_empty_inv (sep : string) (tags : list string) :
  Py.join sep tags = "" -> sep <> "" -> tags = [] \/ tags = [""].
Proof.
  destruct tags as [|t [|t' tags]]; simpl; intros H Hsep.
  - now left.
  - right. now subst.
  - exfalso. destruct t; simpl in H; [|discriminate].
    destruct sep; simpl in H; [congruence|discriminate].
Qed.

(** C9 (amended): the [tech_stack] of the JSON view is [[]] for the empty
    stored string and the comma split of the stored string otherwise; and
    for every sequence of comma-free tags other than the one-element
    sequence holding the empty tag, joining the tags with commas (what
    create and edit store) and then taking the view gives the tags back. *)
Theorem tech_stack_view_roundtrip (p : Project.t) :
  (Project.tech_stack p = "" ->
   ProjectView.tech_stack (project_view p) = []) /\
  (Project.tech_stack p <> "" ->
   ProjectView.tech_stack (project_view p)
   = Py.split comma (Project.tech_stack p)) /\
  (forall tags : list string,
     Forall (fun t => Py.contains comma t = false) tags ->
     tags <> [""] ->
     Project.tech_stack p = Py.join "," tags ->
     ProjectView.tech_stack (project_view p) = tags).
Proof.
  unfold project_view. cbn [ProjectView.tech_stack].
  split; [|split].
  - intros ->. reflexivity.
  - intros Hne. destruct (Project.tech_stack p); [congruence|reflexivity].
  - intros tags Hall Hne Hjoin. rewrite Hjoin.
    destruct (Py.join "," tags) eqn:Hj.
    + apply join_empty_inv in Hj as [->| ->]; [reflexivity|congruence|discriminate].
    + cbn [Py.truthy]. rewrite <- Hj.
      apply (split_join comma); [|assumption].
      intros ->. discriminate.
Qed.

Lemma tech_stack_view_roundtrip_witness :
  Project.tech_stack (demo_project 1 "first" placeholder_image)
  = Py.join "," ["Go"; "Rust"] /\
  ProjectView.tech_stack
    (project_view (demo_project 1 "first" placeholder_image))
  = ["Go"; "Rust"].
Proof.
  split; [reflexivity|].
  apply (proj2 (proj2
           (tech_stack_view_roundtrip
              (demo_project 1 "first" placeholder_image)))).
  - repeat constructor.
  - discriminate.
  - reflexivity.
Defined.

(** C9 as stated fails: the one-element sequence holding the empty tag
    has no comma in any tag, it is stored as the empty string, and the
    view of the empty string is the empty sequence.  The row is the one
    the dashboard creates from a form whose only [tech_stack] value is
    empty. *)
Lemma tech_stack_roundtrip_loses_empty_tag :
  let tags := [""] in
  let r := admin_dashboard demo_secure_filename (demo_world None) "tok"
             (post [("title", "X"); ("tech_stack", "")] [])
             demo_store (Some 1) in
  Forall (fun t => Py.contains comma t = false) tags /\
  map Project.tech_stack (projects (store r)) = [Py.join "," tags] /\
  map (fun p => ProjectView.tech_stack (project_view p)) (projects (store r))
  = [[]] /\
  ~ (forall (p : Project.t) (tags : list string),
       Forall (fun t => Py.contains comma t = false) tags ->
       Project.tech_stack p = Py.join "," tags ->
       ProjectView.tech_stack (project_view p) = tags).
Proof.
  split; [repeat constructor|].
  split; [reflexivity|].
  split; [reflexivity|].
  intros H.
  specialize (H (Project.mk 1 (Some "X") None "" None placeholder_image)
                [""]).
  discriminate H; [repeat constructor | reflexivity].
Qed.

(** ** Listings *)

Lemma insert_desc_perm (p : Project.t) (l : list Project.t) :
  Permutation (insert_desc p l) (p :: l).
Proof.
  induction l as [|q l IH]; simpl; [reflexivity|].
  destruct (Project.id q <=? Project.id p); [reflexivity|].
  rewrite IH. apply perm_swap.
Qed.

Lemma insert_desc_hdrel (a p : Project.t) (l : list Project.t) :
  id_desc a p -> HdRel id_desc a l -> HdRel id_desc a (insert_desc p l).
Proof.
  intros Hap Hal. destruct l as [|q l]; simpl; [now constructor|].
  destruct (Project.id q <=? Project.id p); constructor;
    [assumption | now inversion Hal].
Qed.

Lemma insert_desc_sorted (p : Project.t) (l : list Project.t) :
  Sorted id_desc l -> Sorted id_desc (insert_desc p l).
Proof.
  induction l as [|q l IH]; simpl; intros Hs.
  - repeat constructor.
  - destruct (Project.id q <=? Project.id p) eqn:Hle.
    + constructor; [assumption|]. constructor. unfold id_desc.
      now apply Z.leb_le.
    + inversion Hs as [|? ? Hs' Hhd]; subst.
      constructor; [now apply IH|].
      apply insert_desc_hdrel; [|assumption].
      unfold id_desc. apply Z.leb_gt in Hle. lia.
Qed.

Lemma order_by_id_desc_spec (st : Store) :
  Permutation (Project_query_order_by_id_desc st) (projects st) /\
  Sorted id_desc (Project_query_order_by_id_desc st).
Proof.
  unfold Project_query_order_by_id_desc.
  induction (projects st) as [|p l [IHp IHs]]; simpl.
  - split; constructor.
  - split; [|now apply insert_desc_sorted].
    rewrite insert_desc_perm. now constructor.
Qed.

(** C2: the listing page holds the rows by descending id for every store,
    but [get_projects] issues its query without an ordering and serves
    the rows as the engine scans them: with projects 1 and 2 created in
    that order the JSON array starts with project 1, while the page and
    the admin listing start with project 2. *)
Theorem public_listing_order :
  (forall st sess,
     response (home st sess)
     = render_index (Project_query_order_by_id_desc st) /\
     Permutation (Project_query_order_by_id_desc st) (projects st) /\
     Sorted id_desc (Project_query_order_by_id_desc st)) /\
  (forall st sess,
     response (get_projects st sess)
     = jsonify (map project_view (projects st))) /\
  map Project.id (Project_query_order_by_id_desc demo_store_two_projects)
  = [2; 1] /\
  (exists v1 v2,
     response (get_projects demo_store_two_projects None) = jsonify [v1; v2] /\
     ProjectView.title v1 = Some "first" /\
     ProjectView.title v2 = Some "second").
Proof.
  split; [|split; [|split]].
  - intros st sess. split; [reflexivity|]. apply order_by_id_desc_spec.
  - reflexivity.
  - reflexivity.
  - eexists _, _. repeat split; reflexivity.
Qed.

(** ** Queries *)

Lemma option_string_eqb_eq (a b : option string) :
  option_string_eqb a b = true <-> a = b.
Proof.
  destruct a as [x|], b as [y|]; simpl; try (split; congruence).
  rewrite String.eqb_eq. split; congruence.
Qed.

Lemma filter_by_email_some (st : Store) (e : option string) (u : User.t) :
  User_query_filter_by_email st e = Some u ->
  In u (users st) /\ User.email u = e.
Proof.
  intros H. apply find_some in H as [Hin Heq].
  split; [assumption|]. now apply option_string_eqb_eq.
Qed.

Lemma filter_by_email_none (st : Store) (e : option string) :
  User_query_filter_by_email st e = None <->
  (forall u, In u (users st) -> User.email u <> e).
Proof.
  unfold User_query_filter_by_email. split.
  - intros H u Hin Heq.
    pose proof (find_none _ _ H u Hin) as Hf.
    apply option_string_eqb_eq in Heq. congruence.
  - intros H. destruct (find _ (users st)) as [u|] eqn:Hf; [|reflexivity].
    apply find_some in Hf as [Hin Heq].
    apply option_string_eqb_eq in Heq. now apply H in Hin.
Qed.

Lemma multidict_get_absent {A : Type} (d : list (string * A)) (key : string) :
  ~ In key (map fst d) -> multidict_get d key = None.
Proof.
  induction d as [|[k v] d IH]; simpl; intros H; [reflexivity|].
  destruct (String.eqb_spec k key) as [->|Hne]; [tauto|].
  apply IH. tauto.
Qed.

Lemma multidict_getlist_absent {A : Type} (d : list (string * A))
  (key : string) :
  ~ In key (map fst d) -> multidict_getlist d key = [].
Proof.
  induction d as [|[k v] d IH]; simpl; intros H; [reflexivity|].
  destruct (String.eqb_spec k key) as [->|Hne]; [tauto|].
  apply IH. tauto.
Qed.

Lemma project_get_some (st : Store) (id : Z) (p : Project.t) :
  Project_query_get st id = Some p -> In p (projects st) /\ Project.id p = id.
Proof.
  intros H. apply find_some in H as [Hin Heq].
  split; [assumption|]. now apply Z.eqb_eq.
Qed.

(** After an update is committed, the row read back under that id is the
    updated one, and every other id reads as before. *)
Lemma project_get_update_same (st : Store) (p p' : Project.t) :
  Project_query_get st (Project.id p') = Some p ->
  Project_query_get (update_project st p') (Project.id p') = Some p'.
Proof.
  unfold Project_query_get, update_project. cbn [projects].
  induction (projects st) as [|q l IH]; simpl; [discriminate|].
  destruct (Project.id q =? Project.id p') eqn:Hq.
  - intros _. now rewrite Z.eqb_refl.
  - rewrite Hq. exact IH.
Qed.

Lemma project_get_update_other (st : Store) (p' : Project.t) (id : Z) :
  id <> Project.id p' ->
  Project_query_get (update_project st p') id = Project_query_get st id.
Proof.
  intros Hne. unfold Project_query_get, update_project. cbn [projects].
  induction (projects st) as [|q l IH]; simpl; [reflexivity|].
  destruct (Project.id q =? Project.id p') eqn:Hq.
  - apply Z.eqb_eq in Hq.
    destruct (Z.eqb_spec (Project.id p') id) as [Heq|_]; [congruence|].
    destruct (Z.eqb_spec (Project.id q) id) as [Heq|_]; [congruence|].
    exact IH.
  - destruct (Project.id q =? id); [reflexivity|exact IH].
Qed.

(** ** Handlers *)

Section Properties.

Variable check_password_hash : string -> string -> bool.
Variable generate_password_hash : string -> string -> string.
Variable secure_filename : string -> string.

(** C1: a POST to the login route carrying [email] and [password] leaves
    the store alone and
    - shows the login page with "Invalid credentials." and keeps the
      session as it was when no row has that e-mail, or when the row the
      query returns fails the hash check;
    - shows the login page with "Access denied." and keeps the session as
      it was when that row passes the hash check but is not an admin;
    - otherwise puts that row's id in the session and redirects to the
      dashboard. *)
Theorem admin_login_outcomes (tok : string) (req : Request) (st : Store)
  (sess : option Z) (email password : string) :
  method req = POST ->
  multidict_get (form req) "email" = Some email ->
  multidict_get (form req) "password" = Some password ->
  let r := admin_login check_password_hash tok req st sess in
  let rejected msg :=
    response r = render_admin_login tok /\
    flashes r = [("message", msg)] /\
    session r = sess in
  store r = st /\
  ((forall u, In u (users st) -> User.email u <> Some email) ->
   rejected "Invalid credentials.") /\
  (forall user,
     User_query_filter_by_email st (Some email) = Some user ->
     (check_password_hash (User.password user) password = false ->
      rejected "Invalid credentials.") /\
     (check_password_hash (User.password user) password = true ->
      User.is_admin user = false ->
      rejected "Access denied.") /\
     (check_password_hash (User.password user) password = true ->
      User.is_admin user = true ->
      session r = Some (User.id user) /\
      response r = redirect (route_admin_dashboard tok) None None /\
      flashes r = [])).
Proof.
  intros Hm He Hp. cbv zeta. unfold admin_login. rewrite Hm, He, Hp.
  split; [|split].
  - destruct (User_query_filter_by_email st (Some email)) as [u|];
      [|reflexivity].
    destruct (check_password_hash _ _), (User.is_admin u); reflexivity.
  - intros Hnone. apply filter_by_email_none in Hnone. rewrite Hnone.
    repeat split.
  - intros user ->. split; [|split].
    + intros ->. repeat split.
    + intros -> ->. repeat split.
    + intros -> ->. repeat split.
Qed.

(** C5 (amended): when the request carries no valid session (no cookie,
    or a cookie naming a row that does not exist), [login_required]
    answers in place of the view: create, edit and delete each flash the
    login message and redirect to the configured login view, which is
    the public page [home] and not the admin login form, and leave the
    store and the session untouched. *)
Theorem mutations_require_session (w : World) (tok : string) (id : Z)
  (req : Request) (st : Store) (sess : option Z) :
  current_user st sess = None ->
  let refused here r :=
    r = unauthorized here st sess /\
    response r = redirect route_home None (Some here) /\
    (forall t anchor next,
       response r <> redirect (route_admin_login t) anchor next) /\
    store r = st /\
    session r = sess in
  (forall here view, login_required here st sess view
                     = unauthorized here st sess) /\
  refused (route_admin_dashboard tok)
    (admin_dashboard secure_filename w tok req st sess) /\
  refused (route_edit_project tok id)
    (edit_project secure_filename w tok id req st sess) /\
  refused (route_delete_project tok id) (delete_project tok id st sess).
Proof.
  intros Hcur. cbv zeta.
  assert (Hgate : forall here view,
             login_required here st sess view = unauthorized here st sess).
  { intros here view. unfold login_required. now rewrite Hcur. }
  split; [exact Hgate|].
  unfold admin_dashboard, edit_project, delete_project.
  rewrite !Hgate. repeat split; discriminate.
Qed.



(** What [edit_project] commits for a signed-in client and an existing
    row: the row read back under [id] carries the submitted fields and the
    image the handler settled on; rows under other ids read as before. *)
Lemma edit_project_commits (w : World) (tok : string) (id : Z)
  (req : Request) (st : Store) (sess : option Z) (u : User.t)
  (project : Project.t) :
  current_user st sess = Some u ->
  Project_query_get st id = Some project ->
  let r := edit_project secure_filename w tok id req st sess in
  exists project',
    Project_query_get (store r) id = Some project' /\
    Project.id project' = id /\
    Project.title project' = multidict_get (form req) "title" /\
    Project.description project' = multidict_get (form req) "description" /\
    Project.link project' = multidict_get (form req) "link" /\
    Project.tech_stack project'
    = Py.join "," (multidict_getlist (form req) "tech_stack") /\
    Project.image_filename project'
    = match multidict_get (files req) "image" with
      | None => Project.image_filename project
      | Some file =>
          match upload_wanted w file with
          | None => Project.image_filename project
          | Some client =>
              match upload_image secure_filename w client file with
              | Py.Returned url => url
              | Py.Raised _ => Project.image_filename project
              end
          end
      end /\
    (forall id', id' <> id ->
       Project_query_get (store r) id' = Project_query_get st id') /\
    response r = redirect (route_admin_dashboard tok) None None /\
    session r = sess /\
    users (store r) = users st.
Proof.
  intros Hcur Hget. cbv zeta.
  unfold edit_project, login_required. rewrite Hcur, Hget.
  cbn [store response session].
  pose proof (project_get_some _ _ _ Hget) as [_ Hid]. subst id.
  eexists. split.
  - apply (project_get_update_same st project
             (Project.mk (Project.id project) _ _ _ _ _)).
    exact Hget.
  - cbn [Project.id Project.title Project.description Project.link
         Project.tech_stack Project.image_filename].
    repeat split; try assumption.
    intros id' Hne. apply project_get_update_other. cbn [Project.id].
    congruence.
Qed.

(** C7: when a signed-in client edits an existing project, sends an image
    with a filename, storage is configured and the upload raises, the row
    keeps the image reference it had, while title, description, link and
    tech stack are replaced by the submitted values and committed; other
    rows are untouched. *)
Theorem edit_keeps_image_on_upload_failure (w : World) (tok : string)
  (id : Z) (req : Request) (st : Store) (sess : option Z) (u : User.t)
  (project : Project.t) (file : FileStorage) (client : Client) (e : string) :
  current_user st sess = Some u ->
  Project_query_get st id = Some project ->
  multidict_get (files req) "image" = Some file ->
  filename file <> "" ->
  supabase w = Some client ->
  upload_image secure_filename w client file = Py.Raised e ->
  let r := edit_project secure_filename w tok id req st sess in
  exists project',
    Project_query_get (store r) id = Some project' /\
    Project.image_filename project' = Project.image_filename project /\
    Project.title project' = multidict_get (form req) "title" /\
    Project.description project' = multidict_get (form req) "description" /\
    Project.link project' = multidict_get (form req) "link" /\
    Project.tech_stack project'
    = Py.join "," (multidict_getlist (form req) "tech_stack") /\
    (forall id', id' <> id ->
       Project_query_get (store r) id' = Project_query_get st id') /\
    response r = redirect (route_admin_dashboard tok) None None.
Proof.
  intros Hcur Hget Hfile Hname Hsup Hup. cbv zeta.
  destruct (edit_project_commits w tok id req st sess u project Hcur Hget)
    as (p' & Hp' & _ & Ht & Hd & Hl & Hts & Himg & Hothers & Hresp & _).
  exists p'. repeat split; try assumption.
  rewrite Himg, Hfile. unfold upload_wanted.
  destruct (String.eqb_spec (filename file) ""); [contradiction|].
  now rewrite Hsup, Hup.
Qed.

(** C8: when a signed-in client edits an existing project, title,
    description, link and tech stack of the row become what the form
    holds, whatever they were: a scalar field the form does not carry is
    stored as [None] (NULL), and the tech stack without any [tech_stack]
    value is stored as the empty string. *)
Theorem edit_overwrites_fields (w : World) (tok : string) (id : Z)
  (req : Request) (st : Store) (sess : option Z) (u : User.t)
  (project : Project.t) :
  current_user st sess = Some u ->
  Project_query_get st id = Some project ->
  let r := edit_project secure_filename w tok id req st sess in
  let absent key := ~ In key (map fst (form req)) in
  exists project',
    Project_query_get (store r) id = Some project' /\
    Project.title project' = multidict_get (form req) "title" /\
    Project.description project' = multidict_get (form req) "description" /\
    Project.link project' = multidict_get (form req) "link" /\
    Project.tech_stack project'
    = Py.join "," (multidict_getlist (form req) "tech_stack") /\
    (absent "title" -> Project.title project' = None) /\
    (absent "description" -> Project.description project' = None) /\
    (absent "link" -> Project.link project' = None) /\
    (absent "tech_stack" -> Project.tech_stack project' = "").
Proof.
  intros Hcur Hget. cbv zeta.
  destruct (edit_project_commits w tok id req st sess u project Hcur Hget)
    as (p' & Hp' & _ & Ht & Hd & Hl & Hts & _).
  exists p'. repeat split; try assumption.
  - intros H. now rewrite Ht, multidict_get_absent.
  - intros H. now rewrite Hd, multidict_get_absent.
  - intros H. now rewrite Hl, multidict_get_absent.
  - intros H. now rewrite Hts, multidict_getlist_absent.
Qed.

(** C4: two requests that differ only in the token path parameter get the
    same store, the same session and the same flashed messages from every
    route, and responses that differ only in the token they echo. *)
Theorem token_is_not_checked (w : World) (tok1 tok2 : string) (id : Z)
  (req : Request) (st : Store) (sess : option Z) :
  let same r1 r2 :=
    store r1 = store r2 /\
    session r1 = session r2 /\
    flashes r1 = flashes r2 /\
    response_with_token tok2 (response r1) = response r2 in
  same (admin_login check_password_hash tok1 req st sess)
       (admin_login check_password_hash tok2 req st sess) /\
  same (admin_dashboard secure_filename w tok1 req st sess)
       (admin_dashboard secure_filename w tok2 req st sess) /\
  same (edit_project secure_filename w tok1 id req st sess)
       (edit_project secure_filename w tok2 id req st sess) /\
  same (delete_project tok1 id st sess)
       (delete_project tok2 id st sess) /\
  (forall route,
     same (dispatch check_password_hash secure_filename w route req st sess)
          (dispatch check_password_hash secure_filename w
             (route_with_token tok2 route) req st sess)).
Proof.
  cbv zeta.
  assert (Hlogin :
    forall t, let r1 := admin_login check_password_hash t req st sess in
              let r2 := admin_login check_password_hash tok2 req st sess in
              store r1 = store r2 /\ session r1 = session r2 /\
              flashes r1 = flashes r2 /\
              response_with_token tok2 (response r1) = response r2).
  { intros t. unfold admin_login. destruct (method req); [repeat split|].
    destruct (User_query_filter_by_email st _) as [user|]; [|repeat split].
    destruct (multidict_get (form req) "password");
      [|destruct (pwhash_unpacks _); repeat split].
    destruct (check_password_hash _ _), (User.is_admin user);
      repeat split. }
  assert (Hdash :
    forall t, let r1 := admin_dashboard secure_filename w t req st sess in
              let r2 := admin_dashboard secure_filename w tok2 req st sess in
              store r1 = store r2 /\ session r1 = session r2 /\
              flashes r1 = flashes r2 /\
              response_with_token tok2 (response r1) = response r2).
  { intros t. unfold admin_dashboard, login_required.
    destruct (current_user st sess); [|repeat split].
    destruct (method req); [repeat split|].
    destruct (multidict_get (files req) "image") as [file|]; [|repeat split].
    destruct (upload_wanted w file) as [client|]; [|repeat split].
    destruct (upload_image secure_filename w client file); repeat split. }
  assert (Hedit :
    forall t, let r1 := edit_project secure_filename w t id req st sess in
              let r2 := edit_project secure_filename w tok2 id req st sess in
              store r1 = store r2 /\ session r1 = session r2 /\
              flashes r1 = flashes r2 /\
              response_with_token tok2 (response r1) = response r2).
  { intros t. unfold edit_project, login_required.
    destruct (current_user st sess); [|repeat split].
    destruct (Project_query_get st id); repeat split. }
  assert (Hdel :
    forall t, let r1 := delete_project t id st sess in
              let r2 := delete_project tok2 id st sess in
              store r1 = store r2 /\ session r1 = session r2 /\
              flashes r1 = flashes r2 /\
              response_with_token tok2 (response r1) = response r2).
  { intros t. unfold delete_project, login_required.
    destruct (current_user st sess); [|repeat split].
    destruct (Project_query_get st id); repeat split. }
  split; [apply Hlogin|]. split; [apply Hdash|].
  split; [apply Hedit|]. split; [apply Hdel|].
  intros route.
  destruct route as [| | |t|t|t i|t i|]; cbn [route_with_token].
  - unfold dispatch. destruct (method req); repeat split.
  - unfold dispatch. destruct (method req); repeat split.
  - unfold dispatch. destruct (method req); [repeat split|].
    unfold send_message. cbn. destruct (smtp_relay w); repeat split.
  - unfold dispatch. destruct (method req); apply Hlogin.
  - unfold dispatch. destruct (method req); apply Hdash.
  - unfold dispatch. destruct (method req); [repeat split|].
    clear Hedit.
    unfold edit_project, login_required.
    destruct (current_user st sess); [|repeat split].
    destruct (Project_query_get st i); repeat split.
  - unfold dispatch. destruct (method req); [repeat split|].
    unfold delete_project, login_required.
    destruct (current_user st sess); [|repeat split].
    destruct (Project_query_get st i); repeat split.
  - unfold dispatch. destruct (method req); [|repeat split].
    unfold logout, login_required.
    destruct (current_user st sess); repeat split.
Qed.

End Properties.

(** ** Bootstrap and the running system *)

Lemma find_snoc {A : Type} (f : A -> bool) (l : list A) (x : A) :
  find f (l ++ [x])
  = match find f l with
    | Some y => Some y
    | None => if f x then Some x else None
    end.
Proof.
  induction l as [|a l IH]; simpl; [reflexivity|].
  destruct (f a); [reflexivity|exact IH].
Qed.

Lemma admin_rows_add_user (st : Store) (e : option string) (h : string) :
  admin_rows (add_user st e h true)
  = (admin_rows st ++ [User.mk (user_seq st) e h true])%list.
Proof.
  unfold admin_rows, add_user. cbn [users].
  now rewrite filter_app.
Qed.

Lemma find_by_id_unique (l : list User.t) (u : User.t) :
  NoDup (map User.id l) -> In u l ->
  find (fun v => User.id v =? User.id u) l = Some u.
Proof.
  induction l as [|a l IH]; simpl; intros Hnd Hin; [contradiction|].
  inversion Hnd as [|? ? Hnotin Hnd']; subst.
  destruct Hin as [->|Hin]; [now rewrite Z.eqb_refl|].
  destruct (Z.eqb_spec (User.id a) (User.id u)) as [Heq|_].
  - exfalso. apply Hnotin. rewrite Heq. now apply in_map.
  - now apply IH.
Qed.

Lemma user_keys_ok_add_user (st : Store) (e : option string) (h : string)
  (b : bool) :
  user_keys_ok st -> user_keys_ok (add_user st e h b).
Proof.
  intros [Hnd Hlt]. unfold user_keys_ok, add_user. cbn [users user_seq].
  split.
  - rewrite map_app. cbn [map User.id].
    apply NoDup_app; [assumption|repeat constructor; auto|].
    intros x Hx [<-|[]].
    apply in_map_iff in Hx as (v & Hv & Hin).
    rewrite Forall_forall in Hlt. apply Hlt in Hin. lia.
  - apply Forall_app. split.
    + eapply Forall_impl; [|exact Hlt]. cbn. intros; lia.
    + repeat constructor. cbn. lia.
Qed.

Lemma session_of_admin_add_user (st : Store) (sess : option Z)
  (e : option string) (h : string) (b : bool) :
  session_of_admin st sess -> session_of_admin (add_user st e h b) sess.
Proof.
  destruct sess as [uid|]; [|trivial].
  intros (u & Hload & Hadm). exists u. split; [|assumption].
  unfold load_user, User_query_get, add_user in *. cbn [users].
  now rewrite find_snoc, Hload.
Qed.

Lemma session_of_admin_same_users (st st' : Store) (sess : option Z) :
  users st' = users st -> session_of_admin st sess ->
  session_of_admin st' sess.
Proof.
  intros Hu. destruct sess as [uid|]; [|trivial].
  unfold session_of_admin, load_user, User_query_get. now rewrite Hu.
Qed.

Section System.

Variable check_password_hash : string -> string -> bool.
Variable generate_password_hash : string -> string -> string.
Variable secure_filename : string -> string.

(** No route writes the [User] table. *)
Lemma dispatch_keeps_users (w : World) (route : Route) (req : Request)
  (st : Store) (sess : option Z) :
  let r := dispatch check_password_hash secure_filename w route req st sess in
  users (store r) = users st /\ user_seq (store r) = user_seq st.
Proof.
  cbv zeta.
  unfold dispatch, admin_login, admin_dashboard, edit_project,
    delete_project, logout, login_required.
  destruct route as [| | |t|t|t i|t i|], (method req);
    try (split; reflexivity); break_matches; split; reflexivity.
Qed.

(** A response carries a session only if the request did, or if it is
    the answer of the login route to an admin row that passed the hash
    check. *)
Lemma dispatch_session_origin (w : World) (route : Route) (req : Request)
  (st : Store) (sess : option Z) (uid : Z) :
  session (dispatch check_password_hash secure_filename w route req st sess)
  = Some uid ->
  sess = Some uid \/
  exists tok user password,
    route = route_admin_login tok /\
    method req = POST /\
    User_query_filter_by_email st (multidict_get (form req) "email")
    = Some user /\
    multidict_get (form req) "password" = Some password /\
    check_password_hash (User.password user) password = true /\
    User.is_admin user = true /\
    User.id user = uid.
Proof.
  unfold dispatch.
  destruct route as [| | |t|t|t i|t i|], (method req) eqn:Hm;
    try (cbn; now left).
  - unfold admin_login. rewrite Hm. cbn. now left.
  - unfold admin_login. rewrite Hm.
    destruct (User_query_filter_by_email st _) as [user|] eqn:Hq;
      [|cbn; now left].
    destruct (multidict_get (form req) "password") as [pw|] eqn:Hp;
      [|destruct (pwhash_unpacks _); cbn; now left].
    destruct (check_password_hash _ _) eqn:Hc; [|cbn; now left].
    destruct (User.is_admin user) eqn:Ha; [|cbn; now left].
    cbn. intros [= <-]. right. now exists t, user, pw.
  - unfold admin_dashboard, login_required. rewrite Hm.
    destruct (current_user st sess); cbn; now left.
  - unfold admin_dashboard, login_required. rewrite Hm.
    destruct (current_user st sess); [|cbn; now left].
    destruct (multidict_get (files req) "image") as [file|]; [|cbn; now left].
    destruct (upload_wanted w file) as [client|]; [|cbn; now left].
    destruct (upload_image secure_filename w client file); cbn; now left.
  - unfold edit_project, login_required.
    destruct (current_user st sess); [|cbn; now left].
    destruct (Project_query_get st i); cbn; now left.
  - unfold delete_project, login_required.
    destruct (current_user st sess); [|cbn; now left].
    destruct (Project_query_get st i); cbn; now left.
  - unfold logout, login_required.
    destruct (current_user st sess); cbn; [discriminate|now left].
Qed.

Lemma step_invariant (s : Store * option Z) (ev : Event) :
  user_keys_ok (fst s) /\ session_of_admin (fst s) (snd s) ->
  let s' := step check_password_hash generate_password_hash secure_filename
              s ev in
  user_keys_ok (fst s') /\ session_of_admin (fst s') (snd s').
Proof.
  destruct s as [st sess]. cbn [fst snd]. intros [Hkeys Hsess]. cbv zeta.
  destruct ev as [w route req|cfg salt]; cbn [step].
  - pose proof (dispatch_keeps_users w route req st sess) as [Hu Hseq].
    cbv zeta in Hu, Hseq. cbn [fst snd]. split.
    + unfold user_keys_ok in *. now rewrite Hu, Hseq.
    + destruct (session (dispatch _ _ w route req st sess)) as [uid|] eqn:Hs;
        [|exact I].
      apply dispatch_session_origin in Hs
        as [->|(tok & user & pw & _ & _ & Hq & _ & _ & Ha & <-)].
      * now apply (session_of_admin_same_users st).
      * apply filter_by_email_some in Hq as [Hin _].
        exists user. split; [|assumption].
        unfold load_user, User_query_get. rewrite Hu.
        apply find_by_id_unique; [apply Hkeys|assumption].
  - unfold bootstrap.
    destruct (User_query_filter_by_email st (ADMIN_EMAIL cfg));
      [now split|].
    destruct (ADMIN_PASSWORD cfg); [|now split].
    cbn [fst snd]. split.
    + now apply user_keys_ok_add_user.
    + now apply session_of_admin_add_user.
Qed.

(** C3 (amended): with e-mail and password configured, bootstrap on a
    store where no row has the configured e-mail appends exactly one row,
    an admin with that e-mail and a hash of the configured password, and
    a second run changes nothing; if the store had no admin row (as the
    fresh store), that row is afterwards the only admin.  On a store
    where some row has the configured e-mail bootstrap changes nothing. *)
Theorem bootstrap_seeds_admin (cfg : Config) (salt : string) (st : Store)
  (e pw : string) :
  ADMIN_EMAIL cfg = Some e ->
  ADMIN_PASSWORD cfg = Some pw ->
  ((forall u, In u (users st) -> User.email u <> Some e) ->
   let admin :=
     User.mk (user_seq st) (Some e) (generate_password_hash salt pw) true in
   exists st',
     bootstrap generate_password_hash cfg salt st = Py.Returned st' /\
     users st' = (users st ++ [admin])%list /\
     projects st' = projects st /\
     admin_rows st' = (admin_rows st ++ [admin])%list /\
     (admin_rows st = [] -> admin_rows st' = [admin]) /\
     (forall salt',
        bootstrap generate_password_hash cfg salt' st' = Py.Returned st')) /\
  ((exists u, In u (users st) /\ User.email u = Some e) ->
   bootstrap generate_password_hash cfg salt st = Py.Returned st).
Proof.
  intros He Hpw. unfold bootstrap. rewrite He, Hpw. split.
  - intros Hnone. cbv zeta.
    apply filter_by_email_none in Hnone. rewrite Hnone.
    eexists. split; [reflexivity|].
    split; [reflexivity|]. split; [reflexivity|].
    split; [apply admin_rows_add_user|].
    split; [intros H; now rewrite admin_rows_add_user, H|].
    intros salt'. unfold User_query_filter_by_email in *.
    unfold add_user at 1. cbn [users].
    rewrite find_snoc, Hnone. cbn [User.email option_string_eqb].
    now rewrite String.eqb_refl.
  - intros (u & Hin & Hu).
    destruct (User_query_filter_by_email st (Some e)) eqn:Hq; [reflexivity|].
    exfalso. revert Hin Hu. now apply filter_by_email_none.
Qed.

(** C10: along every run that starts with the primary key of [User]
    intact and without a session or with an admin's, the session is at
    every point absent or that of an admin row; a response carries a
    session only if the request did or if the login route just checked
    [is_admin]; and the gate of the other routes lets the view run for
    any existing user, whatever the flag. *)
Theorem sessions_belong_to_admins :
  (forall evs st sess,
     user_keys_ok st ->
     session_of_admin st sess ->
     let s' := run check_password_hash generate_password_hash
                 secure_filename (st, sess) evs in
     user_keys_ok (fst s') /\ session_of_admin (fst s') (snd s')) /\
  (forall w route req st sess uid,
     session (dispatch check_password_hash secure_filename w route req st sess)
     = Some uid ->
     sess = Some uid \/
     exists tok user,
       route = route_admin_login tok /\
       User_query_filter_by_email st (multidict_get (form req) "email")
       = Some user /\
       User.is_admin user = true /\
       User.id user = uid) /\
  (forall here st sess view u,
     current_user st sess = Some u ->
     login_required here st sess view = view).
Proof.
  split; [|split].
  - intros evs. unfold run.
    induction evs as [|ev evs IH]; intros st sess Hk Hs; cbn [fold_left].
    + now split.
    + pose proof (step_invariant (st, sess) ev (conj Hk Hs)) as Hstep.
      cbv zeta in Hstep.
      destruct (step _ _ _ (st, sess) ev) as [st1 sess1].
      now apply IH.
  - intros w route req st sess uid Hs.
    apply dispatch_session_origin in Hs
      as [->|(tok & user & pw & Hr & _ & Hq & _ & _ & Ha & Hid)];
      [now left|right].
    now exists tok, user.
  - intros here st sess view u Hcur. unfold login_required.
    now rewrite Hcur.
Qed.

End System.

(** ** The model at work on the concrete instance *)

Example split_go_rust : Py.split comma "Go,Rust" = ["Go"; "Rust"].
Proof. reflexivity. Qed.

Example split_empty_string : Py.split comma "" = [""].
Proof. reflexivity. Qed.

Example join_go_rust : Py.join "," ["Go"; "Rust"] = "Go,Rust".
Proof. reflexivity. Qed.

Example demo_hash_checks :
  demo_check_password_hash (demo_generate_password_hash "salt" "s3cret")
    "s3cret" = true /\
  demo_check_password_hash (demo_generate_password_hash "salt" "s3cret")
    "guess" = false.
Proof. split; reflexivity. Qed.

Example bootstrap_fresh_store :
  bootstrap demo_generate_password_hash demo_config "salt" empty_store
  = Py.Returned demo_store.
Proof. reflexivity. Qed.

Example login_wrong_password :
  let r := admin_login demo_check_password_hash "tok"
             (post [("email", "admin@example.com"); ("password", "guess")] [])
             demo_store_with_visitor None in
  flashes r = [("message", "Invalid credentials.")] /\ session r = None.
Proof. split; reflexivity. Qed.

Example login_visitor_denied :
  let r := admin_login demo_check_password_hash "tok"
             (post [("email", "guest@example.com"); ("password", "letmein")] [])
             demo_store_with_visitor None in
  flashes r = [("message", "Access denied.")] /\ session r = None.
Proof. split; reflexivity. Qed.

Example upload_path :
  upload_image demo_secure_filename (demo_world (Some demo_client_ok))
    demo_client_ok demo_image
  = Py.Returned "https://cdn.example/projects/1700000000_shot.png".
Proof. reflexivity. Qed.

Example delete_then_list :
  map Project.id
    (projects (store (delete_project "tok" 1 demo_store_two_projects (Some 1))))
  = [2] /\
  response (delete_project "tok" 7 demo_store_two_projects (Some 1))
  = abort 404.
Proof. split; reflexivity. Qed.

(** The gate looks at the session only: were a cookie ever to name the
    non-admin row, the dashboard would create the project. *)
Example gate_ignores_is_admin :
  User.is_admin demo_visitor = false /\
  current_user demo_store_with_visitor (Some 2) = Some demo_visitor /\
  map Project.title
    (projects (store (admin_dashboard demo_secure_filename (demo_world None)
                        "tok" (post [("title", "X")] [])
                        demo_store_with_visitor (Some 2))))
  = [Some "X"].
Proof. repeat split. Qed.

(** A successful upload on create and on edit stores the returned URL. *)
Example upload_replaces_image :
  let w := demo_world (Some demo_client_ok) in
  let req := post [("title", "X")] [("image", demo_image)] in
  map Project.image_filename
    (projects (store (admin_dashboard demo_secure_filename w "tok" req
                        demo_store (Some 1))))
  = ["https://cdn.example/projects/1700000000_shot.png"] /\
  map Project.image_filename
    (projects (store (edit_project demo_secure_filename w "tok" 2 req
                        demo_store_two_projects (Some 1))))
  = ["https://cdn.example/a.png";
     "https://cdn.example/projects/1700000000_shot.png"].
Proof. split; reflexivity. Qed.

(** ** The theorems at concrete inputs *)

(** The admin of the seeded store signs in with the right password. *)
Lemma admin_login_outcomes_witness :
  let req := post [("email", "admin@example.com"); ("password", "s3cret")] [] in
  let r := admin_login demo_check_password_hash "tok" req
             demo_store_with_visitor None in
  method req = POST /\
  User_query_filter_by_email demo_store_with_visitor
    (Some "admin@example.com") = Some demo_admin /\
  session r = Some 1 /\
  response r = redirect (route_admin_dashboard "tok") None None.
Proof.
  cbv zeta. split; [reflexivity|]. split; [reflexivity|].
  destruct (admin_login_outcomes demo_check_password_hash "tok"
              (post [("email", "admin@example.com"); ("password", "s3cret")] [])
              demo_store_with_visitor None "admin@example.com" "s3cret"
              eq_refl eq_refl eq_refl) as (_ & _ & H).
  destruct (H demo_admin eq_refl) as (_ & _ & Hok).
  destruct (Hok eq_refl eq_refl) as (Hs & Hr & _).
  split; assumption.
Defined.

(** C3 as stated fails: the seeded store, restarted after the configured
    e-mail was changed, gets a second admin row. *)
Lemma bootstrap_after_email_change_two_admins :
  let cfg' := {| ADMIN_EMAIL := Some "owner@example.com";
                 ADMIN_PASSWORD := Some "hunter2" |} in
  bootstrap demo_generate_password_hash demo_config "salt" empty_store
  = Py.Returned demo_store /\
  exists st',
    bootstrap demo_generate_password_hash cfg' "pepper" demo_store
    = Py.Returned st' /\
    map User.email (admin_rows st')
    = [Some "admin@example.com"; Some "owner@example.com"] /\
    List.length (admin_rows st') <> 1%nat.
Proof.
  cbv zeta. split; [reflexivity|].
  eexists. split; [reflexivity|]. split; [reflexivity|]. discriminate.
Qed.

(** Bootstrap on the fresh store, then once more. *)
Lemma bootstrap_seeds_admin_witness :
  exists st',
    bootstrap demo_generate_password_hash demo_config "salt" empty_store
    = Py.Returned st' /\
    admin_rows st' = [demo_admin] /\
    bootstrap demo_generate_password_hash demo_config "other" st'
    = Py.Returned st'.
Proof.
  destruct (bootstrap_seeds_admin demo_generate_password_hash demo_config
              "salt" empty_store "admin@example.com" "s3cret"
              eq_refl eq_refl) as [H _].
  destruct H as (st' & Hb & _ & _ & _ & Hone & Htwice).
  - intros u [].
  - exists st'. split; [exact Hb|]. split; [now apply Hone|apply Htwice].
Defined.

(** C5 as stated fails: a delete without a cookie is not sent to the
    login form but to the public page, whatever token the form's URL
    would carry. *)
Lemma refused_mutation_lands_on_home :
  let r := delete_project "tok" 1 demo_store_two_projects None in
  current_user demo_store_two_projects None = None /\
  response r = redirect route_home None (Some (route_delete_project "tok" 1)) /\
  store r = demo_store_two_projects /\
  ~ (exists t anchor next,
       response r = redirect (route_admin_login t) anchor next).
Proof.
  cbv zeta. split; [reflexivity|]. split; [reflexivity|].
  split; [reflexivity|].
  intros (t & anchor & next & H). discriminate H.
Qed.

(** A client without a cookie, on the seeded store. *)
Lemma mutations_require_session_witness :
  current_user demo_store_two_projects None = None /\
  response (delete_project "tok" 1 demo_store_two_projects None)
  = redirect route_home None (Some (route_delete_project "tok" 1)) /\
  store (delete_project "tok" 1 demo_store_two_projects None)
  = demo_store_two_projects.
Proof.
  split; [reflexivity|].
  destruct (mutations_require_session demo_secure_filename
              (demo_world None) "tok" 1 (post [] [])
              demo_store_two_projects None eq_refl)
    as (_ & _ & _ & _ & Hr & _ & Hs & _).
  split; assumption.
Defined.


(** Editing project 1 while the storage is unreachable. *)
Lemma edit_keeps_image_on_upload_failure_witness :
  let w := demo_world (Some demo_client_down) in
  let req := post [("title", "renamed")] [("image", demo_image)] in
  let r := edit_project demo_secure_filename w "tok" 1 req
             demo_store_two_projects (Some 1) in
  upload_image demo_secure_filename w demo_client_down demo_image
  = Py.Raised "storage unreachable" /\
  exists project',
    Project_query_get (store r) 1 = Some project' /\
    Project.image_filename project' = "https://cdn.example/a.png" /\
    Project.title project' = Some "renamed".
Proof.
  cbv zeta. split; [reflexivity|].
  destruct (edit_keeps_image_on_upload_failure demo_secure_filename
              (demo_world (Some demo_client_down)) "tok" 1
              (post [("title", "renamed")] [("image", demo_image)])
              demo_store_two_projects (Some 1) demo_admin
              (demo_project 1 "first" "https://cdn.example/a.png")
              demo_image demo_client_down "storage unreachable"
              eq_refl eq_refl eq_refl)
    as (p' & Hget & Himg & Ht & _);
    [discriminate | reflexivity | reflexivity |].
  exists p'. split; [exact Hget|]. split; assumption.
Defined.

(** Editing project 2 with a form that carries only a description. *)
Lemma edit_overwrites_fields_witness :
  let req := post [("description", "new text")] [] in
  let r := edit_project demo_secure_filename (demo_world None) "tok" 2 req
             demo_store_two_projects (Some 1) in
  Project_query_get demo_store_two_projects 2
  = Some (demo_project 2 "second" placeholder_image) /\
  exists project',
    Project_query_get (store r) 2 = Some project' /\
    Project.title project' = None /\
    Project.description project' = Some "new text" /\
    Project.tech_stack project' = "".
Proof.
  cbv zeta. split; [reflexivity|].
  destruct (edit_overwrites_fields demo_secure_filename (demo_world None)
              "tok" 2 (post [("description", "new text")] [])
              demo_store_two_projects (Some 1) demo_admin
              (demo_project 2 "second" placeholder_image)
              eq_refl eq_refl)
    as (p' & Hget & _ & Hd & _ & _ & Ht & _ & _ & Hts).
  exists p'. split; [exact Hget|].
  split; [apply Ht; cbn; intros [H|[]]; discriminate H|].
  split; [exact Hd|].
  apply Hts. cbn. intros [H|[]]. discriminate H.
Defined.

(** A fresh database: start the process, sign in, create a project. *)
Lemma sessions_belong_to_admins_witness :
  let evs :=
    [ev_restart demo_config "salt";
     ev_request (demo_world None) (route_admin_login "tok")
       (post [("email", "admin@example.com"); ("password", "s3cret")] []);
     ev_request (demo_world None) (route_admin_dashboard "tok")
       (post [("title", "X")] [])] in
  let s' := run demo_check_password_hash demo_generate_password_hash
              demo_secure_filename (empty_store, None) evs in
  snd s' = Some 1 /\
  List.length (projects (fst s')) = 1%nat /\
  session_of_admin (fst s') (snd s').
Proof.
  cbv zeta. split; [reflexivity|]. split; [reflexivity|].
  apply (proj1 (sessions_belong_to_admins demo_check_password_hash
                  demo_generate_password_hash demo_secure_filename)).
  - split; constructor.
  - exact I.
Defined.

(** * Further properties *)

(** ** The served tags against the stored string *)

Lemma join_cons_cons (sep a b : string) (l : list string) :
  Py.join sep (a :: b :: l) = a ++ sep ++ Py.join sep (b :: l).
Proof. reflexivity. Qed.

Lemma join_split (c : ascii) (s : string) :
  Py.join (String c "") (Py.split c s) = s.
Proof.
  induction s as [|a s IH]; [reflexivity|].
  cbn [Py.split]. destruct (Ascii.eqb_spec a c) as [->|Hne].
  - pose proof (split_not_nil c s) as Hnil.
    destruct (Py.split c s) as [|w ws]; [congruence|].
    rewrite join_cons_cons, IH. reflexivity.
  - pose proof (split_not_nil c s) as Hnil.
    destruct (Py.split c s) as [|w ws]; [congruence|].
    destruct ws as [|w' ws].
    + cbn in IH |- *. now rewrite IH.
    + rewrite join_cons_cons in IH |- *. cbn in IH |- *. now rewrite IH.
Qed.

Lemma split_parts_no_sep (c : ascii) (s : string) :
  Forall (fun t => Py.contains c t = false) (Py.split c s).
Proof.
  induction s as [|a s IH]; [repeat constructor|].
  cbn [Py.split]. destruct (Ascii.eqb a c) eqn:Hac.
  - constructor; [reflexivity|exact IH].
  - destruct (Py.split c s) as [|w ws]; [repeat constructor; cbn; now rewrite Hac|].
    inversion IH as [|? ? Hw Hws]; subst.
    constructor; [|assumption]. cbn. now rewrite Hac.
Qed.

(** X1: for every stored string, the tags served by [/api/projects]
    contain no comma, and joining them with commas gives the stored
    string back: the view loses nothing of what is stored. *)
Theorem view_tags_rejoin (p : Project.t) :
  Py.join "," (ProjectView.tech_stack (project_view p))
  = Project.tech_stack p /\
  Forall (fun t => Py.contains comma t = false)
    (ProjectView.tech_stack (project_view p)).
Proof.
  unfold project_view. cbn [ProjectView.tech_stack].
  destruct (Project.tech_stack p) as [|a s] eqn:Hs; cbn [Py.truthy].
  - split; [reflexivity|constructor].
  - split; [apply (join_split comma)|apply split_parts_no_sep].
Qed.

(** ** The database URL *)

Lemma startswith_iff (s prefix : string) :
  startswith s prefix = true <-> exists rest, s = prefix ++ rest.
Proof.
  revert s. induction prefix as [|a prefix IH]; intros s.
  - destruct s; cbn; split; eauto.
  - destruct s as [|b s]; cbn.
    + split; [discriminate|]. intros [rest H]. discriminate.
    + rewrite andb_true_iff, IH. split.
      * intros [Hab [rest ->]]. apply Ascii.eqb_eq in Hab as ->. now exists rest.
      * intros [rest [= -> ->]]. split; [apply Ascii.eqb_refl|now exists rest].
Qed.

Lemma drop_app (prefix rest : string) :
  drop (String.length prefix) (prefix ++ rest) = rest.
Proof.
  induction prefix as [|a prefix IH]; cbn; [now destruct rest|exact IH].
Qed.

Lemma replace_first_prefix (old new rest : string) :
  replace_first old new (old ++ rest) = new ++ rest.
Proof.
  assert (Hsw : startswith (old ++ rest) old = true)
    by (apply startswith_iff; now exists rest).
  destruct (old ++ rest) as [|a s] eqn:Hs; cbn [replace_first];
    rewrite Hsw, <- Hs, drop_app; reflexivity.
Qed.

(** X2: [DATABASE_URL] set to [postgres://rest] gives the URI
    [postgresql://rest]; any other value is used unchanged; the result
    never starts with [postgres://], and feeding it back changes
    nothing. *)
Theorem database_uri_scheme (url : string) :
  exists uri,
    database_uri (Some url) = Py.Returned uri /\
    (forall rest, url = "postgres://" ++ rest ->
                  uri = "postgresql://" ++ rest) /\
    (startswith url "postgres://" = false -> uri = url) /\
    startswith uri "postgres://" = false /\
    database_uri (Some uri) = Py.Returned uri.
Proof.
  unfold database_uri.
  destruct (startswith url "postgres://") eqn:Hsw.
  - apply startswith_iff in Hsw as [rest ->].
    rewrite replace_first_prefix.
    eexists. split; [reflexivity|].
    assert (Hno : startswith ("postgresql://" ++ rest) "postgres://" = false)
      by reflexivity.
    split; [|split; [discriminate|split; [exact Hno|now rewrite Hno]]].
    intros rest' H. apply (f_equal (drop 11)) in H. cbn in H.
    destruct rest; destruct rest'; cbn in H; congruence.
  - eexists. split; [reflexivity|].
    split; [|split; [reflexivity|split; [exact Hsw|now rewrite Hsw]]].
    intros rest ->. cbn in Hsw. discriminate Hsw.
Qed.

(** ** The [Project] table *)

Lemma project_get_none_iff (st : Store) (id : Z) :
  Project_query_get st id = None <-> ~ In id (map Project.id (projects st)).
Proof.
  unfold Project_query_get. induction (projects st) as [|q l IH]; cbn.
  - tauto.
  - destruct (Z.eqb_spec (Project.id q) id) as [Heq|Hne].
    + split; [discriminate|tauto].
    + rewrite IH. tauto.
Qed.

Lemma project_get_delete_same (st : Store) (p : Project.t) :
  Project_query_get (delete_project_row st p) (Project.id p) = None.
Proof.
  apply project_get_none_iff. unfold delete_project_row. cbn [projects].
  intros Hin. apply in_map_iff in Hin as (q & Hq & Hin).
  apply filter_In in Hin as [_ Hne].
  rewrite Hq, Z.eqb_refl in Hne. discriminate.
Qed.

Lemma project_get_delete_other (st : Store) (p : Project.t) (id : Z) :
  id <> Project.id p ->
  Project_query_get (delete_project_row st p) id = Project_query_get st id.
Proof.
  intros Hne. unfold Project_query_get, delete_project_row. cbn [projects].
  induction (projects st) as [|q l IH]; cbn; [reflexivity|].
  destruct (Z.eqb_spec (Project.id q) (Project.id p)) as [Heq|Hqp]; cbn.
  - destruct (Z.eqb_spec (Project.id q) id); [congruence|exact IH].
  - destruct (Project.id q =? id); [reflexivity|exact IH].
Qed.

Lemma order_by_snoc_fresh (l : list Project.t) (p : Project.t) :
  Forall (fun q => Project.id q < Project.id p) l ->
  fold_right insert_desc [] (l ++ [p])%list
  = p :: fold_right insert_desc [] l.
Proof.
  induction l as [|a l IH]; cbn; intros Hall; [reflexivity|].
  inversion Hall as [|? ? Ha Hl]; subst.
  rewrite (IH Hl). cbn.
  destruct (Z.leb_spec (Project.id p) (Project.id a)); [lia|reflexivity].
Qed.

Lemma update_project_ids (st : Store) (p p' : Project.t) :
  Project_query_get st (Project.id p') = Some p ->
  map Project.id (projects (update_project st p'))
  = map Project.id (projects st).
Proof.
  intros _. unfold update_project. cbn [projects].
  induction (projects st) as [|q l IH]; cbn; [reflexivity|].
  rewrite IH. destruct (Z.eqb_spec (Project.id q) (Project.id p'));
    congruence.
Qed.

Section Coverage.

Variable check_password_hash : string -> string -> bool.
Variable generate_password_hash : string -> string -> string.
Variable secure_filename : string -> string.

(** Every way a request can leave the store. *)
Lemma dispatch_store_cases (w : World) (route : Route) (req : Request)
  (st : Store) (sess : option Z) :
  let r := dispatch check_password_hash secure_filename w route req st sess in
  store r = st \/
  ((exists u, current_user st sess = Some u) /\
   method req = POST /\
   ((exists tok t d ts l img,
       route = route_admin_dashboard tok /\
       store r = add_project st t d ts l img) \/
    (exists tok id p p',
       route = route_edit_project tok id /\
       Project_query_get st (Project.id p') = Some p /\
       store r = update_project st p') \/
    (exists tok id p,
       route = route_delete_project tok id /\
       Project_query_get st id = Some p /\
       store r = delete_project_row st p))).
Proof.
  cbv zeta. unfold dispatch.
  destruct route as [| | |t|t|t i|t i|], (method req) eqn:Hm;
    try (left; reflexivity).
  - left. unfold admin_login. rewrite Hm. reflexivity.
  - left. unfold admin_login. rewrite Hm. break_matches; reflexivity.
  - left. unfold admin_dashboard, login_required. rewrite Hm.
    break_matches; reflexivity.
  - unfold admin_dashboard, login_required. rewrite Hm.
    destruct (current_user st sess) as [u|] eqn:Hcur; [|now left].
    right. split; [now exists u|]. split; [reflexivity|]. left.
    destruct (multidict_get (files req) "image") as [file|];
      [destruct (upload_wanted w file) as [client|];
       [destruct (upload_image secure_filename w client file)|]|];
      cbn [store]; eexists t, _, _, _, _, _; split; reflexivity.
  - unfold edit_project, login_required.
    destruct (current_user st sess) as [u|] eqn:Hcur; [|now left].
    destruct (Project_query_get st i) as [p|] eqn:Hget; [|now left].
    right. split; [now exists u|]. split; [reflexivity|]. right. left.
    pose proof (project_get_some _ _ _ Hget) as [_ Hid].
    eexists t, i, p, _. split; [reflexivity|]. split; [|reflexivity].
    cbn [Project.id]. now rewrite Hid.
  - unfold delete_project, login_required.
    destruct (current_user st sess) as [u|] eqn:Hcur; [|now left].
    destruct (Project_query_get st i) as [p|] eqn:Hget; [|now left].
    right. split; [now exists u|]. split; [reflexivity|]. right. right.
    now exists t, i, p.
  - left. unfold logout, login_required.
    destruct (current_user st sess); reflexivity.
Qed.

(** What a POST to the dashboard from a signed-in client comes to: one
    row appended, built from the form and some image URL. *)
Lemma admin_dashboard_post (w : World) (tok : string) (req : Request)
  (st : Store) (sess : option Z) (u : User.t) :
  current_user st sess = Some u ->
  method req = POST ->
  exists image_url fl,
    admin_dashboard secure_filename w tok req st sess
    = let st' :=
        add_project st
          (multidict_get (form req) "title")
          (multidict_get (form req) "description")
          (Py.join "," (multidict_getlist (form req) "tech_stack"))
          (multidict_get (form req) "link")
          image_url in
      {| response :=
           render_admin_dashboard (Project_query_order_by_id_desc st') tok;
         store := st';
         session := sess;
         flashes := fl |}.
Proof.
  intros Hcur Hm. unfold admin_dashboard, login_required. rewrite Hcur, Hm.
  destruct (multidict_get (files req) "image") as [file|];
    [destruct (upload_wanted w file) as [client|];
     [destruct (upload_image secure_filename w client file)|]|];
    eexists _, _; reflexivity.
Qed.

(** X3: deleting an existing project as a signed-in client removes the
    row: its id is gone from the table and from the listing, every other
    id reads as before, the [User] table is untouched, and deleting the
    same id again answers 404 and changes nothing. *)
Theorem delete_removes_row (tok : string) (id : Z) (st : Store)
  (sess : option Z) (u : User.t) (project : Project.t) :
  current_user st sess = Some u ->
  Project_query_get st id = Some project ->
  let r := delete_project tok id st sess in
  Project_query_get (store r) id = None /\
  ~ In id (map Project.id (Project_query_order_by_id_desc (store r))) /\
  (forall id', id' <> id ->
     Project_query_get (store r) id' = Project_query_get st id') /\
  users (store r) = users st /\
  response r = redirect (route_admin_dashboard tok) None None /\
  response (delete_project tok id (store r) (session r)) = abort 404 /\
  store (delete_project tok id (store r) (session r)) = store r.
Proof.
  intros Hcur Hget. cbv zeta.
  pose proof (project_get_some _ _ _ Hget) as [_ Hid].
  assert (Hr : delete_project tok id st sess
               = {| response :=
                      redirect (route_admin_dashboard tok) None None;
                    store := delete_project_row st project;
                    session := sess;
                    flashes := [] |}).
  { unfold delete_project, login_required. now rewrite Hcur, Hget. }
  rewrite Hr. cbn [store response session].
  assert (Hgone : Project_query_get (delete_project_row st project) id = None).
  { rewrite <- Hid. apply project_get_delete_same. }
  split; [exact Hgone|]. split.
  { intros Hin. apply project_get_none_iff in Hgone. apply Hgone.
    pose proof (order_by_id_desc_spec (delete_project_row st project))
      as [Hperm _].
    eapply Permutation_in; [|exact Hin]. now apply Permutation_map. }
  split.
  { intros id' Hne. apply project_get_delete_other. congruence. }
  split; [reflexivity|]. split; [reflexivity|].
  assert (Hcur' : current_user (delete_project_row st project) sess = Some u)
    by exact Hcur.
  unfold delete_project, login_required.
  rewrite Hcur', Hgone. split; reflexivity.
Qed.

(** X4: a signed-in client that edits or deletes an id no row carries
    gets 404; store and session are left as they were and nothing is
    uploaded or flashed. *)
Theorem unknown_id_is_404 (w : World) (tok : string) (id : Z)
  (req : Request) (st : Store) (sess : option Z) (u : User.t) :
  current_user st sess = Some u ->
  ~ In id (map Project.id (projects st)) ->
  let not_found r :=
    r = {| response := abort 404; store := st; session := sess;
           flashes := [] |} in
  not_found (edit_project secure_filename w tok id req st sess) /\
  not_found (delete_project tok id st sess).
Proof.
  intros Hcur Hnone. apply project_get_none_iff in Hnone. cbv zeta.
  unfold edit_project, delete_project, login_required.
  rewrite Hcur, Hnone. split; reflexivity.
Qed.

(** X5: with the primary key of [Project] intact, a project created by a
    signed-in client gets the next id of the sequence, an id no existing
    row has, and stands first in the dashboard listing returned with the
    response and in the public page rendered afterwards, ahead of the
    earlier listing. *)
Theorem created_project_is_listed_first (w : World) (tok : string)
  (req : Request) (st : Store) (sess : option Z) (u : User.t) :
  current_user st sess = Some u ->
  method req = POST ->
  project_keys_ok st ->
  let r := admin_dashboard secure_filename w tok req st sess in
  exists p,
    response r
    = render_admin_dashboard (p :: Project_query_order_by_id_desc st) tok /\
    response (home (store r) (session r))
    = render_index (p :: Project_query_order_by_id_desc st) /\
    Project.id p = project_seq st /\
    ~ In (Project.id p) (map Project.id (projects st)) /\
    Project.title p = multidict_get (form req) "title" /\
    Project_query_get (store r) (project_seq st) = Some p.
Proof.
  intros Hcur Hm [_ Hlt]. cbv zeta.
  destruct (admin_dashboard_post w tok req st sess u Hcur Hm)
    as (img & fl & ->). cbv zeta. cbn [response store session].
  assert (Hfresh : ~ In (project_seq st) (map Project.id (projects st))).
  { intros Hin. apply in_map_iff in Hin as (q & Hq & Hin).
    rewrite Forall_forall in Hlt. apply Hlt in Hin. lia. }
  assert (Hsort : forall t d ts l,
            Project_query_order_by_id_desc (add_project st t d ts l img)
            = Project.mk (project_seq st) t d ts l img
              :: Project_query_order_by_id_desc st).
  { intros t d ts l. unfold Project_query_order_by_id_desc, add_project.
    cbn [projects]. now apply order_by_snoc_fresh. }
  eexists. unfold home. cbn [response]. rewrite Hsort.
  split; [reflexivity|]. split; [reflexivity|].
  cbn [Project.id Project.title].
  split; [reflexivity|]. split; [exact Hfresh|]. split; [reflexivity|].
  unfold Project_query_get, add_project. cbn [projects].
  rewrite find_snoc. apply project_get_none_iff in Hfresh.
  unfold Project_query_get in Hfresh. rewrite Hfresh.
  cbn [Project.id]. now rewrite Z.eqb_refl.
Qed.

(** X6: whatever the request, [edit_project] neither adds nor removes a
    row and changes no id: the ids in the table afterwards are the ids
    before, each as often as before; and it leaves the [User] table and
    both sequences alone. *)
Theorem edit_keeps_ids (w : World) (tok : string) (id : Z) (req : Request)
  (st : Store) (sess : option Z) :
  let r := edit_project secure_filename w tok id req st sess in
  Permutation (map Project.id (projects (store r)))
    (map Project.id (projects st)) /\
  users (store r) = users st /\
  user_seq (store r) = user_seq st /\
  project_seq (store r) = project_seq st.
Proof.
  cbv zeta. unfold edit_project, login_required.
  destruct (current_user st sess); [|now repeat split].
  destruct (Project_query_get st id) as [p|] eqn:Hget; [|now repeat split].
  cbn [store]. split; [|now repeat split].
  pose proof (project_get_some _ _ _ Hget) as [_ Hid].
  rewrite (update_project_ids st p); [reflexivity|].
  cbn [Project.id]. now rewrite Hid.
Qed.

(** X7: a request changes the store only if it is a POST to the
    dashboard, edit or delete route from a client whose session names an
    existing user; no GET, no public route, no login attempt and no
    logout writes to the database. *)
Theorem store_changes_need_session (w : World) (route : Route)
  (req : Request) (st : Store) (sess : option Z) :
  store (dispatch check_password_hash secure_filename w route req st sess)
  <> st ->
  (exists u, current_user st sess = Some u) /\
  method req = POST /\
  exists tok,
    route = route_admin_dashboard tok \/
    (exists id, route = route_edit_project tok id) \/
    (exists id, route = route_delete_project tok id).
Proof.
  intros Hchg.
  destruct (dispatch_store_cases w route req st sess)
    as [Hsame|(Hu & Hm & Hcases)]; [contradiction|].
  split; [exact Hu|]. split; [exact Hm|].
  destruct Hcases as [(tok & ? & ? & ? & ? & ? & -> & _)
                     |[(tok & id & ? & ? & -> & _)|(tok & id & ? & -> & _)]];
    exists tok; eauto.
Qed.

(** ** Runs of the system *)

Lemma step_users (st : Store) (sess : option Z) (ev : Event) :
  let st1 := fst (step check_password_hash generate_password_hash
                    secure_filename (st, sess) ev) in
  exists added,
    users st1 = (users st ++ added)%list /\
    Forall (fun u => User.is_admin u = true) added /\
    (forall w route req, ev = ev_request w route req -> added = []).
Proof.
  cbv zeta. destruct ev as [w route req|cfg salt]; cbn [step fst].
  - exists []. rewrite app_nil_r.
    split; [apply (dispatch_keeps_users check_password_hash secure_filename)|].
    split; [constructor|reflexivity].
  - unfold bootstrap.
    destruct (User_query_filter_by_email st (ADMIN_EMAIL cfg)).
    { exists []. rewrite app_nil_r. split; [reflexivity|].
      split; [constructor|discriminate]. }
    destruct (ADMIN_PASSWORD cfg).
    + eexists [_]. split; [reflexivity|].
      split; [repeat constructor|discriminate].
    + exists []. rewrite app_nil_r. split; [reflexivity|].
      split; [constructor|discriminate].
Qed.

(** X9: along every run no [User] row is ever changed or removed: the
    table at the end is the table at the start followed by rows that all
    have [is_admin] set; and a run made of requests only leaves the table
    exactly as it was. *)
Theorem users_only_grow_by_admins (evs : list Event) (st : Store)
  (sess : option Z) :
  let st' := fst (run check_password_hash generate_password_hash
                    secure_filename (st, sess) evs) in
  (exists added,
     users st' = (users st ++ added)%list /\
     Forall (fun u => User.is_admin u = true) added) /\
  ((forall ev, In ev evs -> exists w route req, ev = ev_request w route req) ->
   users st' = users st).
Proof.
  cbv zeta. unfold run. revert st sess.
  induction evs as [|ev evs IH]; intros st sess; cbn [fold_left].
  - cbn [fst]. split; [|reflexivity].
    exists []. now rewrite app_nil_r.
  - pose proof (step_users st sess ev) as (added1 & Hu1 & Ha1 & Hreq1).
    cbv zeta in Hu1.
    destruct (step _ _ _ (st, sess) ev) as [st1 sess1]. cbn [fst] in Hu1.
    destruct (IH st1 sess1) as [(added & Hu & Ha) Hreqs]. split.
    + exists (added1 ++ added)%list. rewrite Hu, Hu1, app_assoc.
      split; [reflexivity|]. apply Forall_app. now split.
    + intros Hall. rewrite Hreqs.
      * destruct (Hall ev (or_introl eq_refl)) as (w & route & req & Hev).
        rewrite Hu1, (Hreq1 w route req Hev). apply app_nil_r.
      * intros ev' Hin. apply Hall. now right.
Qed.

Lemma run_invariant (evs : list Event) (st : Store) (sess : option Z) :
  user_keys_ok st ->
  session_of_admin st sess ->
  let s' := run check_password_hash generate_password_hash
              secure_filename (st, sess) evs in
  user_keys_ok (fst s') /\ session_of_admin (fst s') (snd s').
Proof.
  cbv zeta. unfold run. revert st sess.
  induction evs as [|ev evs IH]; intros st sess Hk Hs; cbn [fold_left].
  - now split.
  - pose proof (step_invariant check_password_hash generate_password_hash
                  secure_filename (st, sess) ev (conj Hk Hs)) as Hstep.
    cbv zeta in Hstep.
    destruct (step _ _ _ (st, sess) ev) as [st1 sess1].
    now apply IH.
Qed.

(** X10: in a run that starts with the primary key of [User] intact and
    with no session or an admin's, any request that changes the store at
    any later point comes from a client whose session names a row with
    [is_admin] set: only an admin ever creates, edits or deletes. *)
Theorem only_admins_change_the_store (evs : list Event) (st : Store)
  (sess : option Z) (w : World) (route : Route) (req : Request) :
  user_keys_ok st ->
  session_of_admin st sess ->
  let s := run check_password_hash generate_password_hash
             secure_filename (st, sess) evs in
  store (dispatch check_password_hash secure_filename w route req
           (fst s) (snd s)) <> fst s ->
  exists u,
    current_user (fst s) (snd s) = Some u /\ User.is_admin u = true.
Proof.
  intros Hk Hs. cbv zeta.
  pose proof (run_invariant evs st sess Hk Hs) as [_ Hadm].
  cbv zeta in Hadm.
  destruct (run _ _ _ (st, sess) evs) as [st1 sess1]. cbn [fst snd] in *.
  intros Hchg.
  destruct (dispatch_store_cases w route req st1 sess1)
    as [Hsame|((u & Hu) & _)]; [contradiction|].
  destruct sess1 as [uid|]; [|discriminate].
  destruct Hadm as (u' & Hload & Hadm). exists u'. now split.
Qed.

(** ** Signing in and out *)

(** X11: [logout] never touches the store.  For a signed-in client it
    drops the session and redirects to the public page, after which the
    gate refuses that client, a second logout included.  Without a valid
    session it is itself refused, and the cookie, even a stale one, is
    left as it is. *)
Theorem logout_clears_session (st : Store) (sess : option Z) :
  let r := logout st sess in
  store r = st /\
  (forall u, current_user st sess = Some u ->
     session r = None /\
     response r = redirect route_home None None /\
     (forall here view,
        login_required here (store r) (session r) view
        = unauthorized here st None) /\
     logout (store r) (session r) = unauthorized route_logout st None) /\
  (current_user st sess = None -> r = unauthorized route_logout st sess).
Proof.
  cbv zeta.
  destruct (current_user st sess) as [u|] eqn:Hcur.
  - assert (Hr : logout st sess
                 = {| response := redirect route_home None None;
                      store := st; session := None; flashes := [] |}).
    { unfold logout, login_required. now rewrite Hcur. }
    rewrite Hr. cbn [store session response].
    split; [reflexivity|]. split; [|discriminate].
    intros _ _. repeat split.
  - assert (Hr : logout st sess = unauthorized route_logout st sess).
    { unfold logout, login_required. now rewrite Hcur. }
    rewrite Hr. split; [reflexivity|]. split; [discriminate|reflexivity].
Qed.

(** X12: the public page, the JSON listing and the contact form answer
    every client alike: response and flashed messages do not depend on
    the session, the session is handed back as it came, and the store is
    not written. *)
Theorem public_routes_ignore_session (w : World) (route : Route)
  (req : Request) (st : Store) (sess1 sess2 : option Z) :
  route = route_home \/ route = route_get_projects \/
  route = route_send_message ->
  let r1 := dispatch check_password_hash secure_filename w route req st sess1 in
  let r2 := dispatch check_password_hash secure_filename w route req st sess2 in
  response r1 = response r2 /\
  flashes r1 = flashes r2 /\
  store r1 = st /\
  session r1 = sess1.
Proof.
  intros [->|[->| ->]]; cbv zeta; unfold dispatch;
    destruct (method req); repeat split.
Qed.


(** X14: provided the hash of the configured password verifies against
    that password, bootstrap on a store without a row for the configured
    e-mail followed by a login with the configured e-mail and password
    signs in as the row just created; a password the hash does not
    verify is turned away with "Invalid credentials.". *)
Theorem bootstrap_then_login (cfg : Config) (salt : string) (st : Store)
  (e pw : string) (tok : string) (req : Request) (sess : option Z) :
  ADMIN_EMAIL cfg = Some e ->
  ADMIN_PASSWORD cfg = Some pw ->
  (forall u, In u (users st) -> User.email u <> Some e) ->
  check_password_hash (generate_password_hash salt pw) pw = true ->
  method req = POST ->
  multidict_get (form req) "email" = Some e ->
  exists st',
    bootstrap generate_password_hash cfg salt st = Py.Returned st' /\
    (multidict_get (form req) "password" = Some pw ->
     let r := admin_login check_password_hash tok req st' sess in
     session r = Some (user_seq st) /\
     response r = redirect (route_admin_dashboard tok) None None) /\
    (forall pw',
       multidict_get (form req) "password" = Some pw' ->
       check_password_hash (generate_password_hash salt pw) pw' = false ->
       let r := admin_login check_password_hash tok req st' sess in
       session r = sess /\
       flashes r = [("message", "Invalid credentials.")]).
Proof.
  intros He Hpw Hnone Hc Hm Hfe.
  apply filter_by_email_none in Hnone.
  unfold bootstrap. rewrite He, Hpw, Hnone.
  eexists. split; [reflexivity|].
  assert (Hq : User_query_filter_by_email
                 (add_user st (Some e) (generate_password_hash salt pw) true)
                 (Some e)
               = Some (User.mk (user_seq st) (Some e)
                         (generate_password_hash salt pw) true)).
  { unfold User_query_filter_by_email in *. unfold add_user. cbn [users].
    rewrite find_snoc, Hnone. cbn [User.email option_string_eqb].
    now rewrite String.eqb_refl. }
  split.
  - intros Hp. cbv zeta. unfold admin_login.
    rewrite Hm, Hfe, Hq, Hp. cbn [User.password User.is_admin].
    rewrite Hc. split; reflexivity.
  - intros pw' Hp Hc'. cbv zeta. unfold admin_login.
    rewrite Hm, Hfe, Hq, Hp. cbn [User.password User.is_admin].
    rewrite Hc'. split; reflexivity.
Qed.

(** X15: with [ADMIN_EMAIL] unset, bootstrap on a store without a row of
    NULL e-mail seeds an admin row whose e-mail is NULL; a login POST that
    carries no [email] field then looks up the NULL e-mail, finds that
    row, and signs in with the configured password alone. *)
Theorem unset_admin_email_login (cfg : Config) (salt : string) (st : Store)
  (pw : string) (tok : string) (req : Request) (sess : option Z) :
  ADMIN_EMAIL cfg = None ->
  ADMIN_PASSWORD cfg = Some pw ->
  (forall u, In u (users st) -> User.email u <> None) ->
  check_password_hash (generate_password_hash salt pw) pw = true ->
  method req = POST ->
  ~ In "email" (map fst (form req)) ->
  multidict_get (form req) "password" = Some pw ->
  exists st',
    bootstrap generate_password_hash cfg salt st = Py.Returned st' /\
    map User.email (admin_rows st')
    = (map User.email (admin_rows st) ++ [None])%list /\
    session (admin_login check_password_hash tok req st' sess)
    = Some (user_seq st).
Proof.
  intros He Hpw Hnone Hc Hm Hfe Hp.
  apply filter_by_email_none in Hnone.
  apply multidict_get_absent in Hfe.
  unfold bootstrap. rewrite He, Hpw, Hnone.
  eexists. split; [reflexivity|]. split.
  - rewrite admin_rows_add_user, map_app. reflexivity.
  - unfold admin_login. rewrite Hm, Hfe, Hp.
    unfold User_query_filter_by_email in *. unfold add_user at 1.
    cbn [users]. rewrite find_snoc, Hnone.
    cbn [User.email option_string_eqb User.password User.is_admin].
    now rewrite Hc.
Qed.

Lemma split_app_sep_length (c : ascii) (a b : string) :
  List.length (Py.split c (a ++ String c b))
  = (List.length (Py.split c a) + List.length (Py.split c b))%nat.
Proof.
  induction a as [|x a IH]; cbn [append Py.split].
  - now rewrite Ascii.eqb_refl.
  - destruct (Ascii.eqb x c); [cbn [List.length]; now rewrite IH|].
    pose proof (split_not_nil c (a ++ String c b)) as Hn1.
    pose proof (split_not_nil c a) as Hn2.
    destruct (Py.split c (a ++ String c b)), (Py.split c a);
      try congruence.
    exact IH.
Qed.

(** A stored hash of the shape [method$salt$hashval], the shape
    [generate_password_hash] produces, unpacks. *)
Lemma pwhash_unpacks_three_fields (meth salt hashval : string) :
  pwhash_unpacks (meth ++ "$" ++ salt ++ "$" ++ hashval) = true.
Proof.
  unfold pwhash_unpacks.
  change (meth ++ "$" ++ salt ++ "$" ++ hashval)
    with (meth ++ String "$" (salt ++ String "$" hashval)).
  assert (Hlen : (3 <= List.length
                        (Py.split "$"
                           (meth ++ String "$" (salt ++ String "$" hashval))))%nat).
  { rewrite !split_app_sep_length.
    pose proof (split_not_nil "$" meth) as Hm.
    pose proof (split_not_nil "$" salt) as Hs.
    pose proof (split_not_nil "$" hashval) as Hh.
    destruct (Py.split "$" meth), (Py.split "$" salt),
      (Py.split "$" hashval); try congruence.
    cbn [List.length]. lia. }
  destruct (Py.split "$" (meth ++ String "$" (salt ++ String "$" hashval)))
    as [|p1 [|p2 [|p3 ps]]]; cbn [List.length] in Hlen;
    (reflexivity || lia).
Qed.

(** X16: a login POST without a [password] field leaves store and
    session as they were.  When a row has the submitted e-mail,
    [check_password_hash] is handed [None]: if the stored hash unpacks
    into method, salt and hash value (at least two [$], as every hash
    [generate_password_hash] makes) it raises and the answer is 500; if
    it does not unpack, the check is [False] and the answer is the login
    page with "Invalid credentials.".  When no row has the e-mail the
    check is not reached and the answer is "Invalid credentials.". *)
Theorem login_without_password_field (tok : string) (req : Request)
  (st : Store) (sess : option Z) :
  method req = POST ->
  ~ In "password" (map fst (form req)) ->
  let r := admin_login check_password_hash tok req st sess in
  let invalid :=
    response r = render_admin_login tok /\
    flashes r = [("message", "Invalid credentials.")] in
  store r = st /\
  session r = sess /\
  (forall user,
     User_query_filter_by_email st (multidict_get (form req) "email")
     = Some user ->
     (pwhash_unpacks (User.password user) = true ->
      response r = abort 500 /\ flashes r = []) /\
     (pwhash_unpacks (User.password user) = false -> invalid)) /\
  ((forall u, In u (users st) ->
              User.email u <> multidict_get (form req) "email") ->
   invalid).
Proof.
  intros Hm Hp. apply multidict_get_absent in Hp. cbv zeta.
  unfold admin_login. rewrite Hm, Hp.
  destruct (User_query_filter_by_email st (multidict_get (form req) "email"))
    as [user|] eqn:Hq.
  - destruct (pwhash_unpacks (User.password user)) eqn:Hu;
      cbn [store session response flashes].
    + split; [reflexivity|]. split; [reflexivity|]. split.
      * intros user' [= <-]. rewrite Hu. split; [now intros _|discriminate].
      * intros Hnone. apply filter_by_email_none in Hnone. congruence.
    + split; [reflexivity|]. split; [reflexivity|]. split.
      * intros user' [= <-]. rewrite Hu. split; [discriminate|now intros _].
      * now intros _.
  - cbn [store session response flashes].
    split; [reflexivity|]. split; [reflexivity|]. split; [discriminate|].
    now intros _.
Qed.

(** ** Images *)

Lemma init_supabase_none (url key : option string)
  (create_client : string -> string -> Py.outcome Client) :
  env_truthy url = false \/ env_truthy key = false \/
  (exists u k e, url = Some u /\ key = Some k /\
                 create_client u k = Py.Raised e) ->
  init_supabase url key create_client = None.
Proof.
  unfold init_supabase, env_truthy.
  intros [H|[H|(u & k & e & -> & -> & He)]].
  - destruct url as [u|], key as [k|]; try reflexivity. now rewrite H.
  - destruct url as [u|], key as [k|]; try reflexivity.
    rewrite H, andb_false_r. reflexivity.
  - rewrite He. now destruct (Py.truthy u && Py.truthy k).
Qed.

(** X17: when [SUPABASE_URL] or [SUPABASE_KEY] is unset or empty, or
    creating the client raised at start-up, the site still works without
    storage: a signed-in create stores the placeholder and flashes
    nothing, and a signed-in edit keeps the image the row had, whatever
    file is sent. *)
Theorem no_storage_no_upload (url key : option string)
  (create_client : string -> string -> Py.outcome Client)
  (w : World) (tok : string) (id : Z) (req : Request) (st : Store)
  (sess : option Z) (u : User.t) :
  env_truthy url = false \/ env_truthy key = false \/
  (exists u k e, url = Some u /\ key = Some k /\
                 create_client u k = Py.Raised e) ->
  supabase w = init_supabase url key create_client ->
  current_user st sess = Some u ->
  (method req = POST ->
   let r := admin_dashboard secure_filename w tok req st sess in
   store r
   = add_project st
       (multidict_get (form req) "title")
       (multidict_get (form req) "description")
       (Py.join "," (multidict_getlist (form req) "tech_stack"))
       (multidict_get (form req) "link")
       placeholder_image /\
   flashes r = []) /\
  (forall project,
     Project_query_get st id = Some project ->
     exists project',
       Project_query_get
         (store (edit_project secure_filename w tok id req st sess)) id
       = Some project' /\
       Project.image_filename project' = Project.image_filename project).
Proof.
  intros Hcfg Hsup Hcur.
  rewrite (init_supabase_none _ _ _ Hcfg) in Hsup.
  assert (Hwanted : forall file, upload_wanted w file = None).
  { intros file. unfold upload_wanted. rewrite Hsup.
    now destruct (String.eqb (filename file) ""). }
  split.
  - intros Hm. cbv zeta. unfold admin_dashboard, login_required.
    rewrite Hcur, Hm.
    destruct (multidict_get (files req) "image") as [file|];
      [rewrite Hwanted|]; split; reflexivity.
  - intros project Hget.
    destruct (edit_project_commits secure_filename w tok id req st sess u
                project Hcur Hget)
      as (p' & Hp' & _ & _ & _ & _ & _ & Himg & _).
    exists p'. split; [exact Hp'|]. rewrite Himg.
    destruct (multidict_get (files req) "image") as [file|];
      [now rewrite Hwanted|reflexivity].
Qed.

(** X18: a signed-in edit of an existing project changes the image
    reference only when an [image] part with a filename was sent, storage
    is configured and the upload returned a URL, which is then the new
    reference; in every other case, a failed upload included, the
    reference stays, and in no case is anything flashed. *)
Theorem edit_replaces_image_only_on_success (w : World) (tok : string)
  (id : Z) (req : Request) (st : Store) (sess : option Z) (u : User.t)
  (project : Project.t) :
  current_user st sess = Some u ->
  Project_query_get st id = Some project ->
  let r := edit_project secure_filename w tok id req st sess in
  exists project',
    Project_query_get (store r) id = Some project' /\
    (Project.image_filename project' <> Project.image_filename project ->
     exists file client,
       multidict_get (files req) "image" = Some file /\
       filename file <> "" /\
       supabase w = Some client /\
       upload_image secure_filename w client file
       = Py.Returned (Project.image_filename project')) /\
    (forall file client url,
       multidict_get (files req) "image" = Some file ->
       filename file <> "" ->
       supabase w = Some client ->
       upload_image secure_filename w client file = Py.Returned url ->
       Project.image_filename project' = url) /\
    flashes r = [].
Proof.
  intros Hcur Hget. cbv zeta.
  destruct (edit_project_commits secure_filename w tok id req st sess u
              project Hcur Hget)
    as (p' & Hp' & _ & _ & _ & _ & _ & Himg & _).
  exists p'. split; [exact Hp'|]. rewrite Himg. unfold upload_wanted.
  split; [|split].
  - destruct (multidict_get (files req) "image") as [file|]; [|congruence].
    destruct (String.eqb_spec (filename file) "") as [|Hname]; [congruence|].
    destruct (supabase w) as [client|]; [|congruence].
    destruct (upload_image secure_filename w client file) as [url|e] eqn:Hup;
      [|congruence].
    intros _. now exists file, client.
  - intros file client url -> Hname -> Hup.
    destruct (String.eqb_spec (filename file) ""); [contradiction|].
    now rewrite Hup.
  - unfold edit_project, login_required. now rewrite Hcur, Hget.
Qed.

(** X19: a project created by a signed-in client is served by
    [/api/projects] beside the unchanged views of the rows that were
    there: the array is, up to order, the old views and one new element
    with the submitted title, description and link, with the placeholder
    image when no [image] part was sent, and with the submitted tags
    whenever none of them contains a comma and they are not the single
    empty tag. *)
Theorem created_project_in_api (w : World) (tok : string) (req : Request)
  (st : Store) (sess : option Z) (u : User.t) :
  current_user st sess = Some u ->
  method req = POST ->
  let r := admin_dashboard secure_filename w tok req st sess in
  let tags := multidict_getlist (form req) "tech_stack" in
  exists v views,
    response (get_projects (store r) (session r)) = jsonify views /\
    Permutation views (v :: map project_view (projects st)) /\
    In v views /\
    ProjectView.title v = multidict_get (form req) "title" /\
    ProjectView.description v = multidict_get (form req) "description" /\
    ProjectView.link v = multidict_get (form req) "link" /\
    (multidict_get (files req) "image" = None ->
     ProjectView.image_url v = placeholder_image) /\
    (Forall (fun t => Py.contains comma t = false) tags ->
     tags <> [""] ->
     ProjectView.tech_stack v = tags).
Proof.
  intros Hcur Hm. cbv zeta.
  assert (Himg : multidict_get (files req) "image" = None ->
                 store (admin_dashboard secure_filename w tok req st sess)
                 = add_project st
                     (multidict_get (form req) "title")
                     (multidict_get (form req) "description")
                     (Py.join "," (multidict_getlist (form req) "tech_stack"))
                     (multidict_get (form req) "link")
                     placeholder_image).
  { intros Hnone. unfold admin_dashboard, login_required.
    now rewrite Hcur, Hm, Hnone. }
  destruct (admin_dashboard_post w tok req st sess u Hcur Hm)
    as (img & fl & Hr). rewrite Hr in *. cbv zeta in *.
  cbn [store session response] in *.
  unfold get_projects, Project_query_all. cbn [response].
  unfold add_project at 1. cbn [projects]. rewrite map_app. cbn [map].
  eexists _, _. split; [reflexivity|].
  split; [apply Permutation_sym, Permutation_cons_append|].
  split; [apply in_or_app; right; now left|].
  unfold project_view.
  cbn [ProjectView.title ProjectView.description ProjectView.link
       ProjectView.image_url ProjectView.tech_stack
       Project.title Project.description Project.link
       Project.image_filename Project.tech_stack].
  split; [reflexivity|]. split; [reflexivity|]. split; [reflexivity|].
  split.
  - intros Hnone. apply Himg in Hnone.
    apply (f_equal projects) in Hnone. unfold add_project in Hnone.
    cbn [projects] in Hnone. apply app_inv_head in Hnone.
    now injection Hnone.
  - intros Hall Hne.
    destruct (Py.join "," (multidict_getlist (form req) "tech_stack"))
      eqn:Hj.
    + apply join_empty_inv in Hj as [->|Hj];
        [reflexivity|contradiction|discriminate].
    + cbn [Py.truthy]. rewrite <- Hj.
      apply (split_join comma); [|assumption].
      intros Hnil. rewrite Hnil in Hj. discriminate.
Qed.

End Coverage.

(** ** The further properties at concrete inputs *)

(** The URL Render hands out. *)
Lemma database_uri_scheme_witness :
  database_uri (Some "postgres://u:p@host/db")
  = Py.Returned "postgresql://u:p@host/db".
Proof.
  destruct (database_uri_scheme "postgres://u:p@host/db")
    as (uri & Huri & Hrest & _).
  rewrite Huri. f_equal. now apply (Hrest "u:p@host/db").
Defined.

(** Deleting project 1 of two. *)
Lemma delete_removes_row_witness :
  current_user demo_store_two_projects (Some 1) = Some demo_admin /\
  Project_query_get
    (store (delete_project "tok" 1 demo_store_two_projects (Some 1))) 1
  = None.
Proof.
  split; [reflexivity|].
  apply (delete_removes_row "tok" 1 demo_store_two_projects (Some 1)
           demo_admin (demo_project 1 "first" "https://cdn.example/a.png")
           eq_refl eq_refl).
Defined.

(** Project 7 does not exist. *)
Lemma unknown_id_is_404_witness :
  ~ In 7 (map Project.id (projects demo_store_two_projects)) /\
  response (delete_project "tok" 7 demo_store_two_projects (Some 1))
  = abort 404.
Proof.
  assert (Hno : ~ In 7 (map Project.id (projects demo_store_two_projects))).
  { cbn. intros [H|[H|[]]]; discriminate H. }
  split; [exact Hno|].
  destruct (unknown_id_is_404 demo_secure_filename (demo_world None) "tok" 7
              (post [] []) demo_store_two_projects (Some 1) demo_admin
              eq_refl Hno) as [_ Hdel].
  cbv zeta in Hdel. now rewrite Hdel.
Defined.

Lemma demo_store_two_projects_keys :
  project_keys_ok demo_store_two_projects.
Proof.
  split.
  - cbn. repeat constructor; cbn; intuition discriminate.
  - repeat constructor.
Defined.

(** A third project on top of two. *)
Lemma created_project_is_listed_first_witness :
  project_keys_ok demo_store_two_projects /\
  exists p,
    response (admin_dashboard demo_secure_filename (demo_world None) "tok"
                (post [("title", "third")] [])
                demo_store_two_projects (Some 1))
    = render_admin_dashboard
        (p :: Project_query_order_by_id_desc demo_store_two_projects) "tok" /\
    Project.id p = 3.
Proof.
  split; [exact demo_store_two_projects_keys|].
  destruct (created_project_is_listed_first demo_secure_filename
              (demo_world None) "tok" (post [("title", "third")] [])
              demo_store_two_projects (Some 1) demo_admin
              eq_refl eq_refl demo_store_two_projects_keys)
    as (p & Hresp & _ & Hid & _).
  exists p. split; assumption.
Defined.

(** The request that creates a project is a signed-in POST. *)
Lemma store_changes_need_session_witness :
  let req := post [("title", "X")] [] in
  store (dispatch demo_check_password_hash demo_secure_filename
           (demo_world None) (route_admin_dashboard "tok") req
           demo_store (Some 1)) <> demo_store /\
  (exists u, current_user demo_store (Some 1) = Some u) /\
  method req = POST.
Proof.
  cbv zeta.
  assert (Hchg : store (dispatch demo_check_password_hash demo_secure_filename
                          (demo_world None) (route_admin_dashboard "tok")
                          (post [("title", "X")] []) demo_store (Some 1))
                 <> demo_store).
  { intros H. apply (f_equal project_seq) in H. discriminate H. }
  split; [exact Hchg|].
  destruct (store_changes_need_session demo_check_password_hash
              demo_secure_filename (demo_world None)
              (route_admin_dashboard "tok") (post [("title", "X")] [])
              demo_store (Some 1) Hchg) as (Hu & Hm & _).
  split; assumption.
Defined.

(** A login and a create leave the [User] table alone. *)
Lemma users_only_grow_by_admins_witness :
  let evs :=
    [ev_request (demo_world None) (route_admin_login "tok")
       (post [("email", "guest@example.com"); ("password", "letmein")] []);
     ev_request (demo_world None) (route_admin_dashboard "tok")
       (post [("title", "X")] [])] in
  users (fst (run demo_check_password_hash demo_generate_password_hash
                demo_secure_filename (demo_store_with_visitor, None) evs))
  = users demo_store_with_visitor.
Proof.
  cbv zeta.
  apply (users_only_grow_by_admins demo_check_password_hash
           demo_generate_password_hash demo_secure_filename).
  intros ev [<-|[<-|[]]]; eexists _, _, _; reflexivity.
Defined.

Lemma demo_store_keys : user_keys_ok empty_store.
Proof. split; constructor. Defined.

(** After start-up and login, the create request comes from the admin. *)
Lemma only_admins_change_the_store_witness :
  let evs :=
    [ev_restart demo_config "salt";
     ev_request (demo_world None) (route_admin_login "tok")
       (post [("email", "admin@example.com"); ("password", "s3cret")] [])] in
  let s := run demo_check_password_hash demo_generate_password_hash
             demo_secure_filename (empty_store, None) evs in
  exists u,
    current_user (fst s) (snd s) = Some u /\ User.is_admin u = true.
Proof.
  cbv zeta.
  apply (only_admins_change_the_store demo_check_password_hash
           demo_generate_password_hash demo_secure_filename _ empty_store
           None (demo_world None) (route_admin_dashboard "tok")
           (post [("title", "X")] []) demo_store_keys I).
  intros H. apply (f_equal project_seq) in H. discriminate H.
Defined.

(** The admin signs out. *)
Lemma logout_clears_session_witness :
  current_user demo_store (Some 1) = Some demo_admin /\
  session (logout demo_store (Some 1)) = None.
Proof.
  split; [reflexivity|].
  destruct (logout_clears_session demo_store (Some 1)) as (_ & H & _).
  now destruct (H demo_admin eq_refl) as (Hs & _).
Defined.

(** The JSON listing for the admin and for a stranger. *)
Lemma public_routes_ignore_session_witness :
  response (dispatch demo_check_password_hash demo_secure_filename
              (demo_world None) route_get_projects get
              demo_store_two_projects (Some 1))
  = response (dispatch demo_check_password_hash demo_secure_filename
                (demo_world None) route_get_projects get
                demo_store_two_projects None).
Proof.
  apply (public_routes_ignore_session demo_check_password_hash
           demo_secure_filename (demo_world None) route_get_projects get
           demo_store_two_projects (Some 1) None).
  right. now left.
Defined.



(** Fresh database, configured credentials. *)
Lemma bootstrap_then_login_witness :
  let req := post [("email", "admin@example.com"); ("password", "s3cret")] [] in
  demo_check_password_hash (demo_generate_password_hash "salt" "s3cret")
    "s3cret" = true /\
  exists st',
    bootstrap demo_generate_password_hash demo_config "salt" empty_store
    = Py.Returned st' /\
    session (admin_login demo_check_password_hash "tok" req st' None)
    = Some 1.
Proof.
  cbv zeta. split; [reflexivity|].
  destruct (bootstrap_then_login demo_check_password_hash
              demo_generate_password_hash demo_config "salt" empty_store
              "admin@example.com" "s3cret" "tok"
              (post [("email", "admin@example.com"); ("password", "s3cret")] [])
              None eq_refl eq_refl)
    as (st' & Hb & Hok & _); [intros u []|reflexivity..|].
  exists st'. split; [exact Hb|]. now apply Hok.
Defined.

(** Fresh database, [ADMIN_EMAIL] unset, a form with the password only. *)
Lemma unset_admin_email_login_witness :
  let cfg := {| ADMIN_EMAIL := None; ADMIN_PASSWORD := Some "s3cret" |} in
  let req := post [("password", "s3cret")] [] in
  exists st',
    bootstrap demo_generate_password_hash cfg "salt" empty_store
    = Py.Returned st' /\
    session (admin_login demo_check_password_hash "tok" req st' None)
    = Some 1.
Proof.
  cbv zeta.
  destruct (unset_admin_email_login demo_check_password_hash
              demo_generate_password_hash
              {| ADMIN_EMAIL := None; ADMIN_PASSWORD := Some "s3cret" |}
              "salt" empty_store "s3cret" "tok"
              (post [("password", "s3cret")] []) None eq_refl eq_refl)
    as (st' & Hb & _ & Hs).
  - intros u [].
  - reflexivity.
  - reflexivity.
  - cbn. intros [H|[]]. discriminate H.
  - reflexivity.
  - exists st'. split; assumption.
Defined.

(** The admin's e-mail without a password field. *)
Lemma login_without_password_field_witness :
  let req := post [("email", "admin@example.com")] [] in
  let r := admin_login demo_check_password_hash "tok" req demo_store None in
  pwhash_unpacks (User.password demo_admin) = true /\
  response r = abort 500 /\ session r = None.
Proof.
  cbv zeta. split; [reflexivity|].
  destruct (login_without_password_field demo_check_password_hash "tok"
              (post [("email", "admin@example.com")] []) demo_store None
              eq_refl) as (_ & Hs & H500 & _).
  - cbn. intros [H|[]]. discriminate H.
  - split; [|exact Hs].
    now destruct (H500 demo_admin eq_refl) as [[Hr _] _].
Defined.

(** No [SUPABASE_URL]: an image sent with a create is ignored. *)
Lemma no_storage_no_upload_witness :
  let w := demo_world (init_supabase None (Some "key")
                         (fun _ _ => Py.Returned demo_client_ok)) in
  let r := admin_dashboard demo_secure_filename w "tok"
             (post [("title", "X")] [("image", demo_image)])
             demo_store (Some 1) in
  map Project.image_filename (projects (store r)) = [placeholder_image] /\
  flashes r = [].
Proof.
  cbv zeta.
  destruct (no_storage_no_upload demo_secure_filename None (Some "key")
              (fun _ _ => Py.Returned demo_client_ok)
              (demo_world (init_supabase None (Some "key")
                             (fun _ _ => Py.Returned demo_client_ok)))
              "tok" 1 (post [("title", "X")] [("image", demo_image)])
              demo_store (Some 1) demo_admin
              (or_introl eq_refl) eq_refl eq_refl) as [Hcreate _].
  destruct (Hcreate eq_refl) as [Hst Hfl]. cbv zeta in Hst, Hfl.
  rewrite Hst. split; [reflexivity|exact Hfl].
Defined.

(** Editing project 2 with a new image and working storage. *)
Lemma edit_replaces_image_only_on_success_witness :
  let w := demo_world (Some demo_client_ok) in
  let r := edit_project demo_secure_filename w "tok" 2
             (post [("title", "second")] [("image", demo_image)])
             demo_store_two_projects (Some 1) in
  exists project',
    Project_query_get (store r) 2 = Some project' /\
    Project.image_filename project'
    = "https://cdn.example/projects/1700000000_shot.png".
Proof.
  cbv zeta.
  destruct (edit_replaces_image_only_on_success demo_secure_filename
              (demo_world (Some demo_client_ok)) "tok" 2
              (post [("title", "second")] [("image", demo_image)])
              demo_store_two_projects (Some 1) demo_admin
              (demo_project 2 "second" placeholder_image) eq_refl eq_refl)
    as (p' & Hget & _ & Hnew & _).
  exists p'. split; [exact Hget|].
  apply (Hnew demo_image demo_client_ok); try reflexivity. discriminate.
Defined.

(** The scenario of the specification as seen through the API. *)
Lemma created_project_in_api_witness :
  let r := admin_dashboard demo_secure_filename (demo_world None) "tok"
             (post [("title", "X"); ("tech_stack", "Go")] [])
             demo_store (Some 1) in
  exists v views,
    response (get_projects (store r) (session r)) = jsonify views /\
    In v views /\
    ProjectView.tech_stack v = ["Go"] /\
    ProjectView.image_url v = placeholder_image.
Proof.
  cbv zeta.
  destruct (created_project_in_api demo_secure_filename (demo_world None)
              "tok" (post [("title", "X"); ("tech_stack", "Go")] [])
              demo_store (Some 1) demo_admin eq_refl eq_refl)
    as (v & views & Hresp & _ & Hin & _ & _ & _ & Himg & Htags).
  exists v, views. split; [exact Hresp|]. split; [exact Hin|]. split.
  - apply Htags; [repeat constructor|discriminate].
  - now apply Himg.
Defined.
